(** * Shallow embedding of the data-science template helpers

    The repository ships three thin helper groups written in Python:
    [data/make_dataset.py] ([preprocessing]), [utils/hypothesis_testing.py]
    ([chi2_independence_test], [kruskal_wallis_test]) and plotting helpers.
    This development embeds the first two.  Python objects that are passed
    by reference live in an explicit heap; exceptions are an error result
    that keeps the heap reached so far. *)

From Stdlib Require Import QArith.
From stdpp Require Import gmap strings list.

Open Scope string_scope.
Open Scope list_scope.

(** ** A small Python runtime: exceptions, object heap, state-and-error monad *)

Module Py.

Inductive exn : Set :=
| UnboundLocalError
| TypeError
| ValueError
| KeyError
| AttributeError.

(** References are addresses into the object list. *)
Abbreviation loc := nat (only parsing).

Section Runtime.
Context {obj : Type}.

(** The state a call runs in: the objects reachable by reference (never
    freed; a fresh object is placed at the end) and what was printed. *)
Record world : Type := mkWorld {
  objects : list obj;
  stdout : list string
}.

Definition run (A : Type) : Type := world -> world * (exn + A).

Definition ret {A} (x : A) : run A := fun w => (w, inr x).

Definition raise {A} (e : exn) : run A := fun w => (w, inl e).

Definition bind {A B} (m : run A) (k : A -> run B) : run B :=
  fun w =>
    match m w with
    | (w', inr x) => k x w'
    | (w', inl e) => (w', inl e)
    end.

Definition alloc (o : obj) : run loc :=
  fun w => (mkWorld (objects w ++ [o]) (stdout w), inr (length (objects w))).

Definition load (l : loc) : run obj :=
  fun w =>
    match objects w !! l with
    | Some o => (w, inr o)
    | None => (w, inl AttributeError)
    end.

Definition store (l : loc) (o : obj) : run unit :=
  fun w => (mkWorld (<[l := o]> (objects w)) (stdout w), inr tt).

(** [print(s)] *)
Definition print (s : string) : run unit :=
  fun w => (mkWorld (objects w) (stdout w ++ [s]), inr tt).

(** Lift a library call that either returns or raises. *)
Definition lift {A} (r : exn + A) : run A :=
  match r with
  | inl e => raise e
  | inr x => ret x
  end.

(** Reading a local variable: unbound locals raise. *)
Definition load_fast {A} (v : option A) : run A :=
  match v with
  | Some x => ret x
  | None => raise UnboundLocalError
  end.

(** [for x in xs: body x] *)
Fixpoint for_each {A} (xs : list A) (body : A -> run unit) : run unit :=
  match xs with
  | [] => ret tt
  | x :: rest => bind (body x) (fun _ => for_each rest body)
  end.
End Runtime.

Arguments world : clear implicits.
Arguments run : clear implicits.

End Py.

Import Py.

Notation "'do' x <- m ; k" := (bind m (fun x => k))
  (at level 10, x name, m at level 100, k at level 200,
   format "'[v' 'do'  x  <-  m ; '/' k ']'").
Notation "m ;; k" := (bind m (fun _ => k))
  (at level 100, k at level 200, right associativity).

(** ** data/make_dataset.py *)

Module MakeDataset.

(** *** pandas tables *)

(** The dtype classes [select_dtypes] is asked about: ['number'], ['object'],
    ['category']; every other dtype (bool, datetime64, ...) is [other]. *)
Inductive dtype : Set := number | object | category | other.

#[global] Instance dtype_eq_dec : EqDecision dtype.
Proof. solve_decision. Defined.

(** A cell: float64 values are kept as rationals, everything else as text.
    No arithmetic on cells is done by the embedded code itself. *)
Inductive cell : Set :=
| CNum (x : Q)
| CStr (s : string).

Record Series : Set := mkSeries {
  name : string;
  dtype_of : dtype;
  values : list cell
}.

Record DataFrame : Set := mkDataFrame {
  index_len : nat;
  series : list Series
}.

(** [df.columns] *)
Definition columns (df : DataFrame) : list string := map name (series df).

(** [df.select_dtypes(include=...)] keeps the columns whose dtype is listed,
    in their original order, and builds a new table. *)
Definition select_dtypes (include : list dtype) (df : DataFrame) : DataFrame :=
  {| index_len := index_len df;
     series := filter (fun s => dtype_of s ∈ include) (series df) |}.

(** A two-dimensional float array as returned by the transformers. *)
Record ndarray : Set := mkArray {
  shape0 : nat;
  shape1 : nat;
  data : list (list Q)
}.

(** *** scikit-learn estimators and the values held in Python lists *)

Inductive estimator : Set :=
| MinMaxScaler
| RobustScaler
| PowerTransformer
| StandardScaler
| LabelEncoder
| OrdinalEncoder
| OneHotEncoder (sparse_output : bool) (drop : option string).

#[warnings="-register-all"]
Inductive pyval : Set :=
| VStr (s : string)
| VEstimator (e : estimator)
| VIndex (labels : list string)
| VTuple (items : list pyval).

(** [ColumnTransformer] is library code.  It is taken as an interface: what
    [fit_transform], [transform] and
    [named_transformers_[..].get_feature_names_out(..)] return or raise is
    left to the instance.  The interface is functional: the library reads
    the tables it is given and does not write to them. *)
Class Sklearn : Type := {
  ct_state : Set;
  ct_fit_transform : list pyval -> DataFrame -> exn + (ct_state * ndarray);
  ct_transform : ct_state -> DataFrame -> exn + ndarray;
  ct_feature_names_out : ct_state -> string -> list string -> exn + list string
}.

Section Preprocessing.
Context {sk : Sklearn}.

(** Heap objects the function can hold a reference to. *)
Inductive obj : Type :=
| ODataFrame (df : DataFrame)
| ODict (d : gmap string string)
| OList (l : list pyval)
| OColumnTransformer (transformers : loc) (fitted : option ct_state).

Definition load_frame (l : loc) : run obj DataFrame :=
  do o <- load l;
  match o with
  | ODataFrame df => ret df
  | _ => raise AttributeError
  end.

Definition load_list (l : loc) : run obj (list pyval) :=
  do o <- load l;
  match o with
  | OList xs => ret xs
  | _ => raise AttributeError
  end.

(** [encoder_type] is [None] or a reference to a dict. *)
Definition load_dict (encoder_type : option loc) : run obj (option (gmap string string)) :=
  match encoder_type with
  | None => ret None
  | Some l =>
      do o <- load l;
      match o with
      | ODict d => ret (Some d)
      | _ => raise TypeError
      end
  end.

(** Truth value of [encoder_type]: [None] and the empty dict are false. *)
Definition truthy (d : option (gmap string string)) : bool :=
  match d with
  | None => false
  | Some m => negb (bool_decide (m = ∅))
  end.

(** [xs.append(a, b, ...)]: the method takes exactly one argument. *)
Definition list_append (l : loc) (args : list pyval) : run obj unit :=
  do xs <- load_list l;
  match args with
  | [x] => store l (OList (xs ++ [x]))
  | _ => raise TypeError
  end.

(** [xs.extend(ys)] *)
Definition list_extend (l : loc) (ys : list pyval) : run obj unit :=
  do xs <- load_list l;
  store l (OList (xs ++ ys)).

(** [est == 'power'] for an estimator object: objects of unrelated types
    compare unequal. *)
Definition estimator_eq_str (e : estimator) (s : string) : bool := false.

(** Lines 72-80.  The third test reads the local [scaler], which no branch
    has bound yet at that point. *)
Definition select_scaler (scaler_type : string) : run obj estimator :=
  let scaler : option estimator := None in
  if String.eqb scaler_type "minmax" then ret MinMaxScaler
  else if String.eqb scaler_type "robust" then ret RobustScaler
  else
    do s <- load_fast scaler;
    if estimator_eq_str s "power" then ret PowerTransformer
    else ret StandardScaler.

(** [k in d] and [d[k]] / [d.get(k)] on the dict behind [encoder_type]. *)
Definition contains (d : option (gmap string string)) (k : string) : bool :=
  match d with
  | Some m => bool_decide (is_Some (m !! k))
  | None => false
  end.

Definition get (d : option (gmap string string)) (k : string) : option string :=
  match d with
  | Some m => m !! k
  | None => None
  end.

(** Lines 87-95. *)
Definition select_encoder (encoder_type : option (gmap string string)) (cat_col : string)
  : estimator :=
  if truthy encoder_type && contains encoder_type cat_col then
    if bool_decide (get encoder_type cat_col = Some "label") then LabelEncoder
    else if bool_decide (get encoder_type cat_col = Some "ordinal") then OrdinalEncoder
    else OneHotEncoder false (Some "first")
  else OneHotEncoder false (Some "first").

(** [preprocessor.fit_transform(X)]: fits the transformer object in place. *)
Definition fit_transform (p X : loc) : run obj ndarray :=
  do o <- load p;
  match o with
  | OColumnTransformer ts _ =>
      do steps <- load_list ts;
      do df <- load_frame X;
      do r <- lift (ct_fit_transform steps df);
      store p (OColumnTransformer ts (Some (fst r)));;
      ret (snd r)
  | _ => raise AttributeError
  end.

(** [preprocessor.transform(X)] *)
Definition transform (p X : loc) : run obj ndarray :=
  do o <- load p;
  match o with
  | OColumnTransformer _ (Some st) =>
      do df <- load_frame X;
      lift (ct_transform st df)
  | _ => raise AttributeError
  end.

(** [preprocessor.named_transformers_[key].get_feature_names_out(cols).tolist()] *)
Definition feature_names_out (p : loc) (key : string) (cols : list string)
  : run obj (list string) :=
  do o <- load p;
  match o with
  | OColumnTransformer _ (Some st) => lift (ct_feature_names_out st key cols)
  | _ => raise AttributeError
  end.

(** Column [j] of an array, as a float column of a table. *)
Definition array_column (arr : ndarray) (label : string) (j : nat) : Series :=
  {| name := label;
     dtype_of := number;
     values := map (fun row => CNum (nth j row 0%Q)) (data arr) |}.

(** The table [pd.DataFrame(arr, columns=cols)] builds: a fresh range index
    of the array's length and one float column per label. *)
Definition frame_of_array (arr : ndarray) (cols : list string) : DataFrame :=
  {| index_len := shape0 arr;
     series := zip_with (array_column arr) cols (seq 0 (length cols)) |}.

(** [pd.DataFrame(arr, columns=cols)]: the number of labels must match the
    array's second dimension. *)
Definition pd_DataFrame (arr : ndarray) (cols : list string) : run obj loc :=
  if bool_decide (length cols = shape1 arr) then alloc (ODataFrame (frame_of_array arr cols))
  else raise ValueError.

(** Lines 7-123. *)
Definition preprocessing (train_df test_df : loc) (scaler_type : string)
  (encoder_type : option loc) : run obj (loc * loc) :=
  do train <- load_frame train_df;
  let num_feat := columns (select_dtypes [number] train) in
  let cat_feat := columns (select_dtypes [object; category] train) in
  (* Selecting scaler *)
  do scaler <- select_scaler scaler_type;
  do transformers <- alloc (OList [VTuple [VStr "num"; VEstimator scaler; VIndex num_feat]]);
  (* Encoding categorical columns *)
  for_each cat_feat (fun cat_col =>
    do et <- load_dict encoder_type;
    let encoder := select_encoder et cat_col in
    list_append transformers
      [VStr ("cat_" +:+ cat_col); VEstimator encoder; VIndex [cat_col]]);;
  (* Preprocessing *)
  do preprocessor <- alloc (OColumnTransformer transformers None);
  do train_preprocessed <- fit_transform preprocessor train_df;
  do test_preprocessed <- transform preprocessor test_df;
  let num_col_names := num_feat in
  do cat_col_names <- alloc (OList []);
  for_each cat_feat (fun cat_col =>
    do et <- load_dict encoder_type;
    if truthy et && bool_decide (get et cat_col = Some "onehot") then
      do names <- feature_names_out preprocessor ("cat_" +:+ cat_col) [cat_col];
      list_extend cat_col_names (map VStr names)
    else list_append cat_col_names [VStr cat_col]);;
  do cat_names <- load_list cat_col_names;
  let all_col_names :=
    num_col_names ++ omap (fun v => match v with VStr s => Some s | _ => None end) cat_names in
  do train_df_preprocessed <- pd_DataFrame train_preprocessed all_col_names;
  do test_df_preprocessed <- pd_DataFrame test_preprocessed all_col_names;
  ret (train_df_preprocessed, test_df_preprocessed).

(** *** Closed form of a call

    What a call on well-typed arguments allocates (at addresses [n], [n+1],
    ...) and returns, as a function of the two tables and [scaler_type].
    Lemma [preprocessing_run] below proves that the program above computes
    exactly this. *)

Definition scaler_of (scaler_type : string) : option estimator :=
  if String.eqb scaler_type "minmax" then Some MinMaxScaler
  else if String.eqb scaler_type "robust" then Some RobustScaler
  else None.

Definition num_step (sc : estimator) (train : DataFrame) : list pyval :=
  [VTuple [VStr "num"; VEstimator sc; VIndex (columns (select_dtypes [number] train))]].

Definition preprocessing_trace (n : nat) (train test : DataFrame) (scaler_type : string)
  : list obj * (exn + loc * loc) :=
  let num_feat := columns (select_dtypes [number] train) in
  match scaler_of scaler_type with
  | None => ([], inl UnboundLocalError)
  | Some sc =>
      let steps := OList (num_step sc train) in
      match columns (select_dtypes [object; category] train) with
      | _ :: _ => ([steps], inl TypeError)
      | [] =>
          match ct_fit_transform (num_step sc train) train with
          | inl e => ([steps; OColumnTransformer n None], inl e)
          | inr (st, a1) =>
              let ct := OColumnTransformer n (Some st) in
              match ct_transform st test with
              | inl e => ([steps; ct], inl e)
              | inr a2 =>
                  if bool_decide (length num_feat = shape1 a1) then
                    let out1 := ODataFrame (frame_of_array a1 num_feat) in
                    if bool_decide (length num_feat = shape1 a2) then
                      ([steps; ct; OList []; out1; ODataFrame (frame_of_array a2 num_feat)],
                       inr (n + 3, n + 4))
                    else ([steps; ct; OList []; out1], inl ValueError)
                  else ([steps; ct; OList []], inl ValueError)
              end
          end
      end
  end.

(** [encoder_type] is [None] or refers to a dict. *)
Definition valid_encoder_type (w : world obj) (encoder_type : option loc) : Prop :=
  match encoder_type with
  | None => True
  | Some l => exists d, objects w !! l = Some (ODict d)
  end.

(** The tables behind a returned pair of references. *)
Definition tables_of (w : world obj) (r : exn + loc * loc)
  : option (exn + DataFrame * DataFrame) :=
  match r with
  | inl e => Some (inl e)
  | inr (a, b) =>
      match objects w !! a, objects w !! b with
      | Some (ODataFrame f), Some (ODataFrame g) => Some (inr (f, g))
      | _, _ => None
      end
  end.

End Preprocessing.

(** *** An executable instance of the library interface

    Min-max scaling over rationals for a single numeric step, following the
    library's documented formula [(x - min) / (max - min)], with a zero
    range treated as 1.  Other steps are not covered by this instance and
    are rejected.  It is used to run the embedding on concrete tables. *)

Definition find_series (df : DataFrame) (label : string) : exn + Series :=
  match filter (fun s => name s = label) (series df) with
  | [s] => inr s
  | _ => inl ValueError
  end.

Definition as_float (c : cell) : exn + Q :=
  match c with
  | CNum x => inr x
  | CStr _ => inl ValueError
  end.

Fixpoint traverse {A B} (f : A -> exn + B) (xs : list A) : exn + list B :=
  match xs with
  | [] => inr []
  | x :: rest =>
      match f x with
      | inl e => inl e
      | inr y =>
          match traverse f rest with
          | inl e => inl e
          | inr ys => inr (y :: ys)
          end
      end
  end.

Definition float_column (df : DataFrame) (label : string) : exn + list Q :=
  match find_series df label with
  | inl e => inl e
  | inr s => traverse as_float (values s)
  end.

Definition qmin (a b : Q) : Q := if Qle_bool a b then a else b.
Definition qmax (a b : Q) : Q := if Qle_bool a b then b else a.

Definition fit_range (col : list Q) : exn + (Q * Q) :=
  match col with
  | [] => inl ValueError
  | x :: rest => inr (fold_left qmin rest x, fold_left qmax rest x)
  end.

Definition rescale (r : Q * Q) (x : Q) : Q :=
  let range := (snd r - fst r)%Q in
  Qred (if Qeq_bool range 0 then x - fst r else (x - fst r) / range)%Q.

Definition scaled_rows (n : nat) (cols : list (list Q)) (ranges : list (Q * Q)) : list (list Q) :=
  map (fun i => zip_with (fun col r => rescale r (nth i col 0%Q)) cols ranges) (seq 0 n).

Definition minmax_fit_transform (steps : list pyval) (df : DataFrame)
  : exn + (list (string * (Q * Q)) * ndarray) :=
  match steps with
  | [VTuple [VStr _; VEstimator MinMaxScaler; VIndex cols]] =>
      match traverse (float_column df) cols with
      | inl e => inl e
      | inr cols_data =>
          match traverse fit_range cols_data with
          | inl e => inl e
          | inr ranges =>
              inr (zip cols ranges,
                   mkArray (index_len df) (length cols)
                     (scaled_rows (index_len df) cols_data ranges))
          end
      end
  | _ => inl ValueError
  end.

Definition minmax_transform (st : list (string * (Q * Q))) (df : DataFrame) : exn + ndarray :=
  match traverse (float_column df) (map fst st) with
  | inl e => inl e
  | inr cols_data =>
      if bool_decide (index_len df = 0 ∧ st ≠ []) then inl ValueError
      else inr (mkArray (index_len df) (length st)
                  (scaled_rows (index_len df) cols_data (map snd st)))
  end.

Definition minmax_feature_names_out (st : list (string * (Q * Q))) (key : string)
  (cols : list string) : exn + list string :=
  if String.eqb key "num" then inr cols else inl KeyError.

#[global] Instance minmax_sklearn : Sklearn := {|
  ct_state := list (string * (Q * Q));
  ct_fit_transform := minmax_fit_transform;
  ct_transform := minmax_transform;
  ct_feature_names_out := minmax_feature_names_out
|}.

(** *** Example tables and worlds *)

Definition numeric_train : DataFrame :=
  mkDataFrame 3 [mkSeries "x" number [CNum 1; CNum 2; CNum 3];
                 mkSeries "y" number [CNum 5; CNum 5; CNum 7]].

Definition numeric_test : DataFrame :=
  mkDataFrame 2 [mkSeries "x" number [CNum 0; CNum 2];
                 mkSeries "y" number [CNum 5; CNum 6]].

(** [{"x": [1, 2, 3], "city": ["NY", "LA", "NY"]}] *)
Definition city_train : DataFrame :=
  mkDataFrame 3 [mkSeries "x" number [CNum 1; CNum 2; CNum 3];
                 mkSeries "city" object [CStr "NY"; CStr "LA"; CStr "NY"]].

(** [{"col": ["A", "B", "C"]}] *)
Definition abc_train : DataFrame :=
  mkDataFrame 3 [mkSeries "col" object [CStr "A"; CStr "B"; CStr "C"]].

Definition numeric_world {sk : Sklearn} : world obj :=
  mkWorld [ODataFrame numeric_train; ODataFrame numeric_test] [].

Definition city_world {sk : Sklearn} : world obj :=
  mkWorld [ODataFrame city_train; ODataFrame city_train] [].

(** Train and test tables at addresses 0 and 1, an [encoder_type] dict at 2. *)
Definition world_with {sk : Sklearn} (train test : DataFrame) (d : gmap string string)
  : world obj :=
  mkWorld [ODataFrame train; ODataFrame test; ODict d] [].

Definition abc_world {sk : Sklearn} (d : gmap string string) : world obj :=
  world_with abc_train abc_train d.

(** *** The label loop on its own, and a row contract for the library *)

Section Labels.
Context {sk : Sklearn}.

(** Lines 111-116: the loop that collects the output labels of the
    categorical columns into the list [cat_col_names]. *)
Definition collect_cat_col_names (preprocessor cat_col_names : loc)
  (encoder_type : option loc) (cat_feat : list string) : run obj unit :=
  for_each cat_feat (fun cat_col =>
    do et <- load_dict encoder_type;
    if truthy et && bool_decide (get et cat_col = Some "onehot") then
      do names <- feature_names_out preprocessor ("cat_" +:+ cat_col) [cat_col];
      list_extend cat_col_names (map VStr names)
    else list_append cat_col_names [VStr cat_col]).

(** Lines 106-123: from the two transformed arrays to the two tables. *)
Definition build_outputs (preprocessor : loc) (encoder_type : option loc)
  (num_feat cat_feat : list string) (train_preprocessed test_preprocessed : ndarray)
  : run obj (loc * loc) :=
  let num_col_names := num_feat in
  do cat_col_names <- alloc (OList []);
  collect_cat_col_names preprocessor cat_col_names encoder_type cat_feat;;
  do cat_names <- load_list cat_col_names;
  let all_col_names :=
    num_col_names ++ omap (fun v => match v with VStr s => Some s | _ => None end) cat_names in
  do train_df_preprocessed <- pd_DataFrame train_preprocessed all_col_names;
  do test_df_preprocessed <- pd_DataFrame test_preprocessed all_col_names;
  ret (train_df_preprocessed, test_df_preprocessed).

(** The labels one iteration of that loop adds for [cat_col], given the
    fitted state [st] and the dict behind [encoder_type]. *)
Definition cat_labels (st : ct_state) (et : option (gmap string string)) (cat_col : string)
  : list string :=
  if truthy et && bool_decide (get et cat_col = Some "onehot") then
    match ct_feature_names_out st ("cat_" +:+ cat_col) [cat_col] with
    | inr names => names
    | inl _ => []
    end
  else [cat_col].

(** The dict a reference [encoder_type] stands for in world [w], if it is
    [None] or refers to a dict. *)
Definition encoder_dict (w : world obj) (encoder_type : option loc)
  : option (option (gmap string string)) :=
  match encoder_type with
  | None => Some None
  | Some l =>
      match objects w !! l with
      | Some (ODict d) => Some (Some d)
      | _ => None
      end
  end.

(** An array with [n] rows. *)
Definition array_rows (n : nat) (arr : ndarray) : Prop :=
  shape0 arr = n /\ length (data arr) = n.

(** The library returns one array row per table row. *)
Definition keeps_rows : Prop :=
  (forall steps df st arr,
      ct_fit_transform steps df = inr (st, arr) -> array_rows (index_len df) arr)
  /\ (forall st df arr, ct_transform st df = inr arr -> array_rows (index_len df) arr).

End Labels.

(** Every column of a table has one value per index entry. *)
Definition well_formed (df : DataFrame) : Prop :=
  Forall (fun s => length (values s) = index_len df) (series df).

(** A table with a numeric, a boolean and a datetime column. *)
Definition mixed_train : DataFrame :=
  mkDataFrame 2 [mkSeries "x" number [CNum 1; CNum 3];
                 mkSeries "flag" other [CStr "True"; CStr "False"];
                 mkSeries "when" other [CStr "2024-01-01"; CStr "2024-01-02"]].

End MakeDataset.

(** ** utils/hypothesis_testing.py *)

Module HypothesisTesting.

(** The statistics library is taken as an interface.  Floats are abstract;
    [float_lt] is [<] on them.  [chi2_pval] is the ['pval'] column of the
    stats table and [kruskal_p_unc] the ['p-unc'] entry of the first row
    of the result. *)
Class Pingouin : Type := {
  float : Type;
  float_lt : float -> float -> bool;
  alpha_default : float;
  table : Type;
  chi2_stats : Type;
  chi2_independence : table -> string -> string -> exn + chi2_stats;
  chi2_pval : chi2_stats -> list float;
  show_chi2 : chi2_stats -> string;
  kruskal_result : Type;
  kruskal : table -> string -> string -> exn + kruskal_result;
  kruskal_p_unc : kruskal_result -> float;
  show_kruskal : kruskal_result -> string
}.

(** The only objects these functions hold references to are lists of names. *)
Inductive obj : Set :=
| OList (items : list string).

Definition items_of (o : obj) : list string :=
  match o with OList xs => xs end.

(** [xs.append(x)] *)
Definition list_append (l : loc) (x : string) : run obj unit :=
  do o <- load l;
  store l (OList (items_of o ++ [x])).

(** ['-'*80] *)
Fixpoint repeat_str (s : string) (n : nat) : string :=
  match n with
  | O => ""
  | S k => s +:+ repeat_str s k
  end.

(** The default values of [sig_col] and [no_sig_col]: the two list literals
    in a [def] header are evaluated once, when the [def] is executed. *)
Record defaults : Set := mkDefaults {
  sig_col_default : loc;
  no_sig_col_default : loc
}.

Definition def_defaults : run obj defaults :=
  do a <- alloc (OList []);
  do b <- alloc (OList []);
  ret (mkDefaults a b).

Record module : Set := mkModule {
  chi2_defaults : defaults;
  kruskal_defaults : defaults
}.

(** Executing the module runs its two [def] statements in order. *)
Definition import_module : run obj module :=
  do c <- def_defaults;
  do k <- def_defaults;
  ret (mkModule c k).

Section Tests.
Context {pg : Pingouin}.

(** Lines 5-67.  An omitted [sig_col], [no_sig_col] or [alpha] is [None]. *)
Definition chi2_independence_test (m : module) (data : table) (main_cat sec_cat : string)
  (sig_col no_sig_col : option loc) (alpha : option float) : run obj (loc * loc) :=
  let sig_col := default (sig_col_default (chi2_defaults m)) sig_col in
  let no_sig_col := default (no_sig_col_default (chi2_defaults m)) no_sig_col in
  let alpha := default alpha_default alpha in
  do stats <- lift (chi2_independence data main_cat sec_cat);
  print (repeat_str "-" 80);;
  print (show_chi2 stats);;
  let stat_sign := map (fun p => float_lt p alpha) (chi2_pval stats) in
  (if existsb id stat_sign then
     print ("Reject null hypothesis: There is a statistically significant difference between "
            +:+ sec_cat +:+ " and " +:+ main_cat);;
     list_append sig_col sec_cat
   else
     print ("Failed to reject null hypothesis: There is no statistically significant difference "
            +:+ sec_cat +:+ " and " +:+ main_cat);;
     list_append no_sig_col sec_cat);;
  print (repeat_str "-" 80);;
  ret (sig_col, no_sig_col).

(** Lines 69-127. *)
Definition kruskal_wallis_test (m : module) (data : table) (cat_feat num_feat : string)
  (sig_col no_sig_col : option loc) (alpha : option float) : run obj (loc * loc) :=
  let sig_col := default (sig_col_default (kruskal_defaults m)) sig_col in
  let no_sig_col := default (no_sig_col_default (kruskal_defaults m)) no_sig_col in
  let alpha := default alpha_default alpha in
  do results <- lift (kruskal data num_feat cat_feat);
  print (repeat_str "-" 80);;
  print (show_kruskal results);;
  (if float_lt (kruskal_p_unc results) alpha then
     print ("Reject null hypothesis: There is a statistically significant difference in "
            +:+ num_feat +:+ " between " +:+ cat_feat +:+ ".");;
     list_append sig_col num_feat
   else
     print ("Failed to reject null hypothesis: There is no statistically significant difference in "
            +:+ num_feat +:+ " between " +:+ cat_feat);;
     list_append no_sig_col num_feat);;
  print (repeat_str "-" 80);;
  ret (sig_col, no_sig_col).

(** [stat_sign.any()] for the chi-squared stats table. *)
Definition chi2_significant (stats : chi2_stats) (alpha : float) : bool :=
  existsb id (map (fun p => float_lt p alpha) (chi2_pval stats)).

End Tests.

(** [x] was appended to the list at [target]; no other object changed. *)
Definition appended (w w' : world obj) (target : nat) (x : string) : Prop :=
  exists xs,
    objects w !! target = Some (OList xs)
    /\ objects w' !! target = Some (OList (xs ++ [x]))
    /\ forall l, l <> target -> objects w' !! l = objects w !! l.

(** The names among [calls] whose significance flag is [b], in call order. *)
Definition names_where (b : bool) (calls : list (bool * string)) : list string :=
  map snd (filter (fun c => fst c = b) calls).

(** An executable instance: p-values are rationals handed in directly as
    the table, so that the two wrappers can be run on concrete inputs. *)
Definition q_lt (a b : Q) : bool := negb (Qle_bool b a).

#[global] Instance direct_pingouin : Pingouin := {|
  float := Q;
  float_lt := q_lt;
  alpha_default := (5 # 100)%Q;
  table := list Q;
  chi2_stats := list Q;
  chi2_independence := fun d _ _ => inr d;
  chi2_pval := fun st => st;
  show_chi2 := fun _ => "stats";
  kruskal_result := Q;
  kruskal := fun d _ _ => match d with p :: _ => inr p | [] => inl ValueError end;
  kruskal_p_unc := fun r => r;
  show_kruskal := fun _ => "results"
|}.

(** The module as executed in an empty world: its four default lists. *)
Definition imported_module : module := mkModule (mkDefaults 0 1) (mkDefaults 2 3).

Definition imported_world : world obj :=
  mkWorld [OList []; OList []; OList []; OList []] [].

(** *** Outcome of a test and the line it prints *)

Section Outcomes.
Context {pg : Pingouin}.

(** Whether [chi2_independence_test] takes the rejecting branch for
    [sec_cat] (line 59); [false] when the library call raises. *)
Definition chi2_rejects (data : table) (main_cat : string) (alpha : option float)
  (sec_cat : string) : bool :=
  match chi2_independence data main_cat sec_cat with
  | inr stats => chi2_significant stats (default alpha_default alpha)
  | inl _ => false
  end.

(** Whether [kruskal_wallis_test] takes the rejecting branch for
    [num_feat] (line 119); [false] when the library call raises. *)
Definition kruskal_rejects (data : table) (cat_feat : string) (alpha : option float)
  (num_feat : string) : bool :=
  match kruskal data num_feat cat_feat with
  | inr results => float_lt (kruskal_p_unc results) (default alpha_default alpha)
  | inl _ => false
  end.

(** The message of lines 60 and 63. *)
Definition chi2_message (main_cat sec_cat : string) (rejects : bool) : string :=
  if rejects then
    "Reject null hypothesis: There is a statistically significant difference between "
    +:+ sec_cat +:+ " and " +:+ main_cat
  else
    "Failed to reject null hypothesis: There is no statistically significant difference "
    +:+ sec_cat +:+ " and " +:+ main_cat.

(** The message of lines 120 and 123. *)
Definition kruskal_message (cat_feat num_feat : string) (rejects : bool) : string :=
  if rejects then
    "Reject null hypothesis: There is a statistically significant difference in "
    +:+ num_feat +:+ " between " +:+ cat_feat +:+ "."
  else
    "Failed to reject null hypothesis: There is no statistically significant difference in "
    +:+ num_feat +:+ " between " +:+ cat_feat.

End Outcomes.

(** A second executable instance, in which both tests raise [ValueError]
    on a table without p-values. *)
Definition checked_pingouin : Pingouin := {|
  float := Q;
  float_lt := q_lt;
  alpha_default := (5 # 100)%Q;
  table := list Q;
  chi2_stats := list Q;
  chi2_independence := fun d _ _ => match d with [] => inl ValueError | _ => inr d end;
  chi2_pval := fun st => st;
  show_chi2 := fun _ => "stats";
  kruskal_result := Q;
  kruskal := fun d _ _ => match d with p :: _ => inr p | [] => inl ValueError end;
  kruskal_p_unc := fun r => r;
  show_kruskal := fun _ => "results"
|}.

End HypothesisTesting.

(** ** visualization/visualize.py *)

Module Visualize.

(** *** What is drawn, and the plotting state *)

(** A seaborn call with the keyword arguments the two functions pass;
    arguments left out are [None], [kde] defaults to [False]. *)
Inductive artist : Set :=
| Histplot (x : string) (hue : option string) (kde : bool)
    (multiple stat : option string) (shrink : option Q)
| Boxplot (x : string) (hue : option string)
| Countplot (x : string) (hue : option string).

(** Objects of a plotting session. *)
Inductive obj : Set :=
| OFigure (figsize : nat * nat) (tight : bool)
| OAxes (artists : list artist) (title : option string).

(** What [plt.subplots] returns next to the figure (default
    [squeeze=True]): one [Axes], a one-dimensional array of them, or a
    two-dimensional one. *)
Inductive axes_array : Set :=
| AxesScalar (ax : nat)
| Axes1D (axs : list nat)
| Axes2D (rows : list (list nat)).

(** Exceptions: [IndexError], or one of the runtime's. *)
Inductive raised : Set :=
| IndexError
| PyExn (e : exn).

(** seaborn is taken as an interface: whether a call on a table returns or
    raises.  A call that returns adds its artist to the [Axes] it was
    given. *)
Class Seaborn : Type := {
  table : Type;
  sns_call : table -> artist -> raised + unit
}.

(** The objects created so far (a fresh one is placed at the end) and
    pyplot's current figure. *)
Record pyplot : Set := mkPyplot {
  plt_objects : list obj;
  plt_gcf : option nat
}.

Definition plot (A : Type) : Type := pyplot -> pyplot * (raised + A).

Definition pret {A} (x : A) : plot A := fun p => (p, inr x).

Definition praise {A} (e : raised) : plot A := fun p => (p, inl e).

Definition pbind {A B} (m : plot A) (k : A -> plot B) : plot B :=
  fun p =>
    match m p with
    | (p', inr x) => k x p'
    | (p', inl e) => (p', inl e)
    end.

(** [for i, x in enumerate(xs): body i x], counting from [i]. *)
Fixpoint for_enumerate {A} (i : nat) (xs : list A) (body : nat -> A -> plot unit)
  : plot unit :=
  match xs with
  | [] => pret tt
  | x :: rest => pbind (body i x) (fun _ => for_enumerate (S i) rest body)
  end.

(** Addresses of an [nrows] by [ncols] grid of objects placed row by row
    from address [base]. *)
Definition grid (base nrows ncols : nat) : list (list nat) :=
  map (fun r => map (fun c => base + r * ncols + c) (seq 0 ncols)) (seq 0 nrows).

Definition squeeze (nrows ncols : nat) (g : list (list nat)) : axes_array :=
  if Nat.eqb nrows 1 && Nat.eqb ncols 1 then AxesScalar (default 0 (concat g !! 0))
  else if Nat.eqb nrows 1 || Nat.eqb ncols 1 then Axes1D (concat g)
  else Axes2D g.

(** [plt.subplots(nrows, ncols, figsize=figsize)]: a new figure, which
    becomes the current one, then the grid of blank [Axes]; a grid without
    rows or columns is rejected after the figure was made. *)
Definition plt_subplots (nrows ncols : nat) (figsize : nat * nat) : plot (nat * axes_array) :=
  fun p =>
    let fig := length (plt_objects p) in
    let objs := plt_objects p ++ [OFigure figsize false] in
    if Nat.eqb nrows 0 || Nat.eqb ncols 0 then (mkPyplot objs (Some fig), inl (PyExn ValueError))
    else
      (mkPyplot (objs ++ repeat (OAxes [] None) (nrows * ncols)) (Some fig),
       inr (fig, squeeze nrows ncols (grid (S fig) nrows ncols))).

(** [axs[i, j]] *)
Definition getitem2 (axs : axes_array) (i j : nat) : plot nat :=
  match axs with
  | Axes2D rows =>
      match rows !! i with
      | Some row =>
          match row !! j with
          | Some ax => pret ax
          | None => praise IndexError
          end
      | None => praise IndexError
      end
  | Axes1D _ => praise IndexError
  | AxesScalar _ => praise (PyExn TypeError)
  end.

(** [axs[i]], used as an [Axes] *)
Definition getitem1 (axs : axes_array) (i : nat) : plot nat :=
  match axs with
  | Axes1D row =>
      match row !! i with
      | Some ax => pret ax
      | None => praise IndexError
      end
  | Axes2D _ => praise (PyExn AttributeError)
  | AxesScalar _ => praise (PyExn TypeError)
  end.

(** [ax.set_title(s)] *)
Definition set_title (ax : nat) (s : string) : plot unit :=
  fun p =>
    match plt_objects p !! ax with
    | Some (OAxes arts _) =>
        (mkPyplot (<[ax := OAxes arts (Some s)]> (plt_objects p)) (plt_gcf p), inr tt)
    | _ => (p, inl (PyExn AttributeError))
    end.

(** [plt.tight_layout()]: on the current figure; without one, pyplot makes
    a figure first. *)
Definition plt_tight_layout : plot unit :=
  fun p =>
    match plt_gcf p with
    | Some fig =>
        match plt_objects p !! fig with
        | Some (OFigure size _) =>
            (mkPyplot (<[fig := OFigure size true]> (plt_objects p)) (plt_gcf p), inr tt)
        | _ => (p, inl (PyExn AttributeError))
        end
    | None =>
        (mkPyplot (plt_objects p ++ [OFigure (6, 4) true]) (Some (length (plt_objects p))),
         inr tt)
    end.

(** Truth value of [hue]: [None] and the empty string are false. *)
Definition hue_given (hue : option string) : bool :=
  match hue with
  | Some s => negb (String.eqb s "")
  | None => false
  end.

Section Plots.
Context {sns : Seaborn}.

(** A seaborn call [sns.f(data=df, ..., ax=ax)]. *)
Definition draw (df : table) (art : artist) (ax : nat) : plot unit :=
  fun p =>
    match sns_call df art with
    | inl e => (p, inl e)
    | inr _ =>
        match plt_objects p !! ax with
        | Some (OAxes arts title) =>
            (mkPyplot (<[ax := OAxes (arts ++ [art]) title]> (plt_objects p)) (plt_gcf p),
             inr tt)
        | _ => (p, inl (PyExn AttributeError))
        end
    end.

(** Lines 6-44.  An omitted [name_df] is [None]. *)
Definition explore_numerical_dist (df : table) (cols : list string) (hue : option string)
  (name_df : option string) : plot unit :=
  let name_df := default "Train data" name_df in
  pbind (plt_subplots (length cols) 2 (12, 6 * length cols)) (fun fig_axs =>
  let axs := snd fig_axs in
  pbind
    (if hue_given hue then
       for_enumerate 0 cols (fun i col =>
         pbind (getitem2 axs i 0) (fun ax0 =>
         pbind (draw df (Histplot col hue true None None None) ax0) (fun _ =>
         pbind (getitem2 axs i 1) (fun ax1 =>
         pbind (draw df (Boxplot col hue) ax1) (fun _ =>
         pbind (getitem2 axs i 0) (fun ax0 =>
         pbind (set_title ax0
                  (name_df +:+ " " +:+ col +:+ " histogram by " +:+ default "" hue))
           (fun _ =>
         pbind (getitem2 axs i 1) (fun ax1 =>
         set_title ax1 (name_df +:+ " " +:+ col +:+ " boxplot by " +:+ default "" hue)
         ))))))))
     else
       for_enumerate 0 cols (fun i col =>
         pbind (getitem2 axs i 0) (fun ax0 =>
         pbind (draw df (Histplot col None true None None None) ax0) (fun _ =>
         pbind (getitem2 axs i 1) (fun ax1 =>
         pbind (draw df (Boxplot col None) ax1) (fun _ =>
         pbind (getitem2 axs i 0) (fun ax0 =>
         pbind (set_title ax0 (name_df +:+ " " +:+ col +:+ " histogram")) (fun _ =>
         pbind (getitem2 axs i 1) (fun ax1 =>
         set_title ax1 (name_df +:+ " " +:+ col +:+ " boxplot")
         )))))))))
    (fun _ => plt_tight_layout)).

(** Lines 47-93. *)
Definition plotting_categories (df : table) (cat_cols : list string) (hue : option string)
  (name_df : option string) : plot unit :=
  let name_df := default "Train data" name_df in
  pbind
    (if hue_given hue then
       pbind (plt_subplots (length cat_cols) 2 (12, 6 * length cat_cols)) (fun fig_axs =>
       let axs := snd fig_axs in
       for_enumerate 0 cat_cols (fun i col =>
         pbind (getitem2 axs i 0) (fun ax0 =>
         pbind (draw df (Countplot col hue) ax0) (fun _ =>
         pbind (getitem2 axs i 1) (fun ax1 =>
         pbind (draw df (Histplot col hue false (Some "fill") (Some "proportion")
                           (Some (8 # 10)%Q)) ax1) (fun _ =>
         pbind (getitem2 axs i 0) (fun ax0 =>
         pbind (set_title ax0
                  (name_df +:+ " " +:+ col +:+ " count by " +:+ default "" hue)) (fun _ =>
         pbind (getitem2 axs i 1) (fun ax1 =>
         set_title ax1 (name_df +:+ " " +:+ col +:+ " proportion by " +:+ default "" hue)
         )))))))))
     else
       pbind (plt_subplots (length cat_cols) 1 (6, 6 * length cat_cols)) (fun fig_axs =>
       let axs := snd fig_axs in
       for_enumerate 0 cat_cols (fun i col =>
         pbind (getitem1 axs i) (fun ax =>
         pbind (draw df (Countplot col None) ax) (fun _ =>
         pbind (getitem1 axs i) (fun ax =>
         set_title ax (name_df +:+ " " +:+ col +:+ " count")))))))
    (fun _ => plt_tight_layout).

(** *** The finished [Axes] of one column *)

(** The two [Axes] of a row after [explore_numerical_dist] handled [col]. *)
Definition explored (name_df : option string) (hue : option string) (col : string)
  : list obj :=
  let name_df := default "Train data" name_df in
  if hue_given hue then
    [OAxes [Histplot col hue true None None None]
       (Some (name_df +:+ " " +:+ col +:+ " histogram by " +:+ default "" hue));
     OAxes [Boxplot col hue]
       (Some (name_df +:+ " " +:+ col +:+ " boxplot by " +:+ default "" hue))]
  else
    [OAxes [Histplot col None true None None None]
       (Some (name_df +:+ " " +:+ col +:+ " histogram"));
     OAxes [Boxplot col None] (Some (name_df +:+ " " +:+ col +:+ " boxplot"))].

(** The artists [explore_numerical_dist] draws for [col]. *)
Definition explored_artists (hue : option string) (col : string) : list artist :=
  if hue_given hue then [Histplot col hue true None None None; Boxplot col hue]
  else [Histplot col None true None None None; Boxplot col None].

(** The [Axes] of a row after [plotting_categories] handled [col]: two with
    [hue], one without. *)
Definition categorized (name_df : option string) (hue : option string) (col : string)
  : list obj :=
  let name_df := default "Train data" name_df in
  if hue_given hue then
    [OAxes [Countplot col hue]
       (Some (name_df +:+ " " +:+ col +:+ " count by " +:+ default "" hue));
     OAxes [Histplot col hue false (Some "fill") (Some "proportion") (Some (8 # 10)%Q)]
       (Some (name_df +:+ " " +:+ col +:+ " proportion by " +:+ default "" hue))]
  else
    [OAxes [Countplot col None] (Some (name_df +:+ " " +:+ col +:+ " count"))].

(** The artists [plotting_categories] draws for [col]. *)
Definition categorized_artists (hue : option string) (col : string) : list artist :=
  if hue_given hue then
    [Countplot col hue;
     Histplot col hue false (Some "fill") (Some "proportion") (Some (8 # 10)%Q)]
  else [Countplot col None].

End Plots.

(** An executable instance: the table is the list of its column names,
    and a call on a column that is not in the table raises [ValueError]. *)
Definition artist_column (art : artist) : string :=
  match art with
  | Histplot x _ _ _ _ _ => x
  | Boxplot x _ => x
  | Countplot x _ => x
  end.

Definition listed_seaborn : Seaborn := {|
  table := list string;
  sns_call := fun df art =>
    if bool_decide (artist_column art ∈ df) then inr tt else inl (PyExn ValueError)
|}.

End Visualize.

(** * Properties *)

(** ** Stepping the runtime on a heap split into old and new objects *)

Module PyFacts.

#[global] Arguments bind : simpl never.
#[global] Arguments ret : simpl never.
#[global] Arguments raise : simpl never.
#[global] Arguments alloc : simpl never.
#[global] Arguments load : simpl never.
#[global] Arguments store : simpl never.
#[global] Arguments print : simpl never.

Section Steps.
Context {obj : Type}.
Implicit Types (h news : list obj) (out : list string) (o : obj) (l k : nat).

Lemma bind_ret {A B} (x : A) (f : A -> run obj B) w : bind (ret x) f w = f x w.
Proof. reflexivity. Qed.

Lemma bind_raise {A B} (e : exn) (f : A -> run obj B) w :
  bind (raise e) f w = (w, inl e).
Proof. reflexivity. Qed.

Lemma bind_bind {A B C} (m : run obj A) (f : A -> run obj B) (g : B -> run obj C) w :
  bind (bind m f) g w = bind m (fun x => bind (f x) g) w.
Proof. unfold bind. destruct (m w) as [w' [e|x]]; reflexivity. Qed.

Lemma bind_lift {A B} (r : exn + A) (f : A -> run obj B) w :
  bind (lift r) f w = match r with inl e => (w, inl e) | inr x => f x w end.
Proof. destruct r; reflexivity. Qed.

Lemma bind_alloc {B} o (f : nat -> run obj B) h news out :
  bind (alloc o) f (mkWorld (h ++ news) out)
  = f (length h + length news) (mkWorld (h ++ (news ++ [o])) out).
Proof. unfold bind, alloc. simpl. now rewrite length_app, app_assoc. Qed.

Lemma bind_load_old {B} l o (f : obj -> run obj B) h news out :
  h !! l = Some o ->
  bind (load l) f (mkWorld (h ++ news) out) = f o (mkWorld (h ++ news) out).
Proof.
  intros E. unfold bind, load. simpl.
  rewrite lookup_app_l by (eapply lookup_lt_Some; eassumption).
  now rewrite E.
Qed.

Lemma bind_load_new {B} k o (f : obj -> run obj B) h news out :
  news !! k = Some o ->
  bind (load (length h + k)) f (mkWorld (h ++ news) out) = f o (mkWorld (h ++ news) out).
Proof.
  intros E. unfold bind, load. simpl.
  rewrite lookup_app_r by lia.
  replace (length h + k - length h) with k by lia.
  now rewrite E.
Qed.

Lemma bind_store_new {B} k o (f : unit -> run obj B) h news out :
  bind (store (length h + k) o) f (mkWorld (h ++ news) out)
  = f tt (mkWorld (h ++ <[k := o]> news) out).
Proof. unfold bind, store. simpl. now rewrite insert_app_r. Qed.

Lemma bind_load {B} l o (f : obj -> run obj B) w :
  objects w !! l = Some o -> bind (load l) f w = f o w.
Proof. intros E. unfold bind, load. now rewrite E. Qed.

Lemma bind_store {B} l o (f : unit -> run obj B) w :
  bind (store l o) f w = f tt (mkWorld (<[l := o]> (objects w)) (stdout w)).
Proof. reflexivity. Qed.

Lemma bind_print {B} s (f : unit -> run obj B) (objs : list obj) out :
  bind (print s) f (mkWorld objs out) = f tt (mkWorld objs (out ++ [s])).
Proof. reflexivity. Qed.

End Steps.

End PyFacts.

(** ** data/make_dataset.py: [preprocessing] *)

Module PreprocessingFacts.
Import PyFacts MakeDataset.

Section Facts.
Context {sk : Sklearn}.
Implicit Types (h news : list obj) (out : list string) (w : world obj).

(** Lines 72-80 in closed form. *)
Lemma select_scaler_run scaler_type w :
  select_scaler scaler_type w
  = (w, match scaler_of scaler_type with
        | Some sc => inr sc
        | None => inl UnboundLocalError
        end).
Proof.
  unfold select_scaler, scaler_of.
  destruct (String.eqb scaler_type "minmax"); [reflexivity|].
  destruct (String.eqb scaler_type "robust"); reflexivity.
Qed.

Lemma bind_select_scaler {B} scaler_type (f : estimator -> run obj B) w :
  bind (select_scaler scaler_type) f w
  = match scaler_of scaler_type with
    | Some sc => f sc w
    | None => (w, inl UnboundLocalError)
    end.
Proof.
  unfold bind. rewrite select_scaler_run.
  destruct (scaler_of scaler_type); reflexivity.
Qed.

Lemma bind_load_dict {B} encoder_type (f : option (gmap string string) -> run obj B) h news out :
  valid_encoder_type (mkWorld h out) encoder_type ->
  exists d, bind (load_dict encoder_type) f (mkWorld (h ++ news) out)
            = f d (mkWorld (h ++ news) out).
Proof.
  destruct encoder_type as [l|]; simpl.
  - intros [d E]. exists (Some d). unfold load_dict.
    rewrite bind_bind. now rewrite (bind_load_old _ _ _ _ _ _ E).
  - intros _. now exists None.
Qed.

Lemma bind_pd_DataFrame {B} arr cols (f : nat -> run obj B) h news out :
  bind (pd_DataFrame arr cols) f (mkWorld (h ++ news) out)
  = if bool_decide (length cols = shape1 arr)
    then f (length h + length news)
           (mkWorld (h ++ (news ++ [ODataFrame (frame_of_array arr cols)])) out)
    else (mkWorld (h ++ news) out, inl ValueError).
Proof.
  unfold pd_DataFrame. case_bool_decide; [apply bind_alloc | reflexivity].
Qed.

(** One symbolic step of a run on a world of the form [h ++ news]. *)
Ltac step :=
  first
    [ rewrite bind_bind
    | rewrite bind_ret
    | rewrite bind_raise
    | rewrite bind_alloc
    | erewrite bind_load_old by eassumption
    | erewrite bind_load_new by reflexivity
    | rewrite bind_store_new
    | rewrite bind_lift
    | rewrite bind_pd_DataFrame ];
  cbn [app length for_each fst snd omap list_insert insert option_bind mbind].

(** The program computes its closed form. *)
Lemma preprocessing_run h out train_df test_df scaler_type encoder_type train test :
  h !! train_df = Some (ODataFrame train) ->
  h !! test_df = Some (ODataFrame test) ->
  valid_encoder_type (mkWorld h out) encoder_type ->
  preprocessing train_df test_df scaler_type encoder_type (mkWorld h out)
  = (mkWorld (h ++ fst (preprocessing_trace (length h) train test scaler_type)) out,
     snd (preprocessing_trace (length h) train test scaler_type)).
Proof.
  intros Htr Hte Het.
  unfold preprocessing, preprocessing_trace, load_frame.
  rewrite <- (app_nil_r h) at 1.
  repeat step.
  rewrite bind_select_scaler.
  destruct (scaler_of scaler_type) as [sc|]; [|reflexivity].
  step. fold (num_step sc train).
  destruct (columns (select_dtypes [object; category] train)) as [|cat_col rest].
  - cbn [for_each]. unfold fit_transform, transform, load_list, load_frame.
    repeat step.
    destruct (ct_fit_transform (num_step sc train) train) as [e|[st a1]].
    { now rewrite Nat.add_0_r. }
    repeat step.
    destruct (ct_transform st test) as [e|a2].
    { now rewrite Nat.add_0_r. }
    repeat step. rewrite !app_nil_r, Nat.add_0_r.
    case_bool_decide; [|reflexivity].
    repeat step.
    case_bool_decide; reflexivity.
  - cbn [for_each]. unfold list_append, load_list, load_dict.
    destruct encoder_type as [l|]; [destruct Het as [d Ed]|]; repeat step; reflexivity.
Qed.

Lemma preprocessing_run_world w train_df test_df scaler_type encoder_type train test :
  objects w !! train_df = Some (ODataFrame train) ->
  objects w !! test_df = Some (ODataFrame test) ->
  valid_encoder_type w encoder_type ->
  preprocessing train_df test_df scaler_type encoder_type w
  = (mkWorld (objects w ++ fst (preprocessing_trace (length (objects w)) train test scaler_type))
       (stdout w),
     snd (preprocessing_trace (length (objects w)) train test scaler_type)).
Proof. destruct w as [h out]. apply preprocessing_run. Qed.

(** Column labels of a table built from an array are the labels given. *)
Lemma zip_with_array_column_names arr cols start :
  map name (zip_with (array_column arr) cols (seq start (length cols))) = cols.
Proof.
  revert start. induction cols as [|c cols IH]; intros start; [reflexivity|].
  simpl. now rewrite IH.
Qed.

Lemma columns_frame_of_array arr cols : columns (frame_of_array arr cols) = cols.
Proof. apply zip_with_array_column_names. Qed.

(** What a run returns, read back from the world it leaves, does not depend
    on where its fresh objects were placed. *)
Lemma tables_of_trace h out h' out' train test scaler_type :
  tables_of (mkWorld (h ++ fst (preprocessing_trace (length h) train test scaler_type)) out)
            (snd (preprocessing_trace (length h) train test scaler_type))
  = tables_of (mkWorld (h' ++ fst (preprocessing_trace (length h') train test scaler_type)) out')
              (snd (preprocessing_trace (length h') train test scaler_type))
  /\ is_Some (tables_of
                (mkWorld (h ++ fst (preprocessing_trace (length h) train test scaler_type)) out)
                (snd (preprocessing_trace (length h) train test scaler_type))).
Proof.
  unfold preprocessing_trace.
  destruct (scaler_of scaler_type) as [sc|]; [|now split].
  destruct (columns (select_dtypes [object; category] train)); [|now split].
  destruct (ct_fit_transform (num_step sc train) train) as [e|[st a1]]; [now split|].
  destruct (ct_transform st test) as [e|a2]; [now split|].
  case_bool_decide; [|now split].
  case_bool_decide; [|now split].
  cbn [fst snd tables_of objects].
  rewrite !lookup_app_r by lia.
  replace (length h + 3 - length h) with 3 by lia.
  replace (length h + 4 - length h) with 4 by lia.
  replace (length h' + 3 - length h') with 3 by lia.
  replace (length h' + 4 - length h') with 4 by lia.
  now split.
Qed.

(** Objects appended to a world leave the tables behind a result in place. *)
Lemma tables_of_app h news out out' r t :
  tables_of (mkWorld h out) r = Some (inr t) ->
  tables_of (mkWorld (h ++ news) out') r = Some (inr t).
Proof.
  destruct r as [e|[a b]]; [discriminate|].
  cbn [tables_of objects].
  destruct (h !! a) as [oa|] eqn:Ea; [|discriminate].
  destruct (h !! b) as [ob|] eqn:Eb; [|destruct oa; discriminate].
  rewrite (lookup_app_l_Some _ _ _ _ Ea), (lookup_app_l_Some _ _ _ _ Eb).
  trivial.
Qed.

(** C1.  Lines 72-80 select [MinMaxScaler] for ['minmax'] and [RobustScaler]
    for ['robust']; for every other [scaler_type], including ['power'] and
    the default ['standard'], the third test reads the unbound local
    [scaler] and the call raises [UnboundLocalError]: [PowerTransformer] and
    [StandardScaler] are never selected. *)
Theorem select_scaler_unbound_local (scaler_type : string) (w : world obj) :
  select_scaler scaler_type w
  = (w, if String.eqb scaler_type "minmax" then inr MinMaxScaler
        else if String.eqb scaler_type "robust" then inr RobustScaler
        else inl UnboundLocalError).
Proof.
  rewrite select_scaler_run. unfold scaler_of.
  destruct (String.eqb scaler_type "minmax"); [reflexivity|].
  destruct (String.eqb scaler_type "robust"); reflexivity.
Qed.

(** C2.  With the default [scaler_type='standard'] a call on any training
    table returns no tables at all: it raises [UnboundLocalError] before
    anything is allocated, so no row count is preserved. *)
Theorem preprocessing_default_scaler_raises (w : world obj) (train_df test_df : nat)
  (encoder_type : option nat) (train : DataFrame) :
  objects w !! train_df = Some (ODataFrame train) ->
  preprocessing train_df test_df "standard" encoder_type w = (w, inl UnboundLocalError).
Proof.
  intros Htr. destruct w as [h out]. cbn [objects] in Htr.
  unfold preprocessing, load_frame.
  rewrite <- (app_nil_r h).
  repeat step.
  rewrite bind_select_scaler. reflexivity.
Qed.

(** C3.  A column with categories [A], [B], [C] that is to be one-hot
    encoded, by default ([encoder_type=None]) or on request
    ([{'col': 'onehot'}]), produces no output column at all: the call
    raises [TypeError] at the three-argument [append], leaving only the
    list holding the numeric step behind. *)
Theorem one_hot_column_raises :
  preprocessing 0 1 "minmax" None (abc_world ∅)
  = (mkWorld (objects (abc_world ∅) ++ [OList (num_step MinMaxScaler abc_train)]) [],
     inl TypeError)
  /\ preprocessing 0 1 "minmax" (Some 2) (abc_world {[ "col" := "onehot" ]})
     = (mkWorld (objects (abc_world {[ "col" := "onehot" ]})
                 ++ [OList (num_step MinMaxScaler abc_train)]) [],
        inl TypeError).
Proof.
  split.
  - now rewrite (preprocessing_run_world _ 0 1 _ None abc_train abc_train).
  - rewrite (preprocessing_run_world _ 0 1 _ (Some 2) abc_train abc_train);
      [reflexivity..|]. now eexists.
Qed.

(** C4.  The encoder is resolved from [encoder_type] as documented
    (['label'], ['ordinal'], anything else, absent column, [None]), but it
    is never fit or applied: whatever the dict holds, the call on a table
    with a categorical column raises [TypeError] when the step is appended,
    before a [ColumnTransformer] exists. *)
Theorem encoder_resolved_but_never_fit (d : gmap string string) :
  select_encoder (Some {[ "col" := "label" ]}) "col" = LabelEncoder
  /\ select_encoder (Some {[ "col" := "ordinal" ]}) "col" = OrdinalEncoder
  /\ select_encoder (Some {[ "col" := "binary" ]}) "col" = OneHotEncoder false (Some "first")
  /\ select_encoder (Some {[ "other" := "label" ]}) "col" = OneHotEncoder false (Some "first")
  /\ select_encoder None "col" = OneHotEncoder false (Some "first")
  /\ preprocessing 0 1 "robust" (Some 2) (abc_world d)
     = (mkWorld (objects (abc_world d) ++ [OList (num_step RobustScaler abc_train)]) [],
        inl TypeError).
Proof.
  do 5 (split; [reflexivity|]).
  rewrite (preprocessing_run_world _ 0 1 _ (Some 2) abc_train abc_train);
    [reflexivity..|]. now eexists.
Qed.

(** C7.  A call only adds objects: every object that existed before, the
    two input tables among them, is unchanged afterwards, nothing is
    printed, and the call either raises or returns two distinct, newly
    allocated tables. *)
Theorem preprocessing_frame (w : world obj) (train_df test_df : nat)
  (scaler_type : string) (encoder_type : option nat) (train test : DataFrame) :
  objects w !! train_df = Some (ODataFrame train) ->
  objects w !! test_df = Some (ODataFrame test) ->
  valid_encoder_type w encoder_type ->
  let (w', r) := preprocessing train_df test_df scaler_type encoder_type w in
  (exists news, objects w' = objects w ++ news)
  /\ stdout w' = stdout w
  /\ objects w' !! train_df = Some (ODataFrame train)
  /\ objects w' !! test_df = Some (ODataFrame test)
  /\ match r with
     | inl _ => True
     | inr (out1, out2) =>
         length (objects w) <= out1 /\ length (objects w) <= out2 /\ out1 <> out2
         /\ exists f1 f2, objects w' !! out1 = Some (ODataFrame f1)
                          /\ objects w' !! out2 = Some (ODataFrame f2)
     end.
Proof.
  intros Htr Hte Het.
  rewrite (preprocessing_run_world _ _ _ _ _ _ _ Htr Hte Het).
  cbn [objects stdout].
  split; [now eexists|]. split; [reflexivity|].
  split; [now apply lookup_app_l_Some|]. split; [now apply lookup_app_l_Some|].
  unfold preprocessing_trace.
  destruct (scaler_of scaler_type) as [sc|]; [|exact I].
  destruct (columns (select_dtypes [object; category] train)); [|exact I].
  destruct (ct_fit_transform (num_step sc train) train) as [e|[st a1]]; [exact I|].
  destruct (ct_transform st test) as [e|a2]; [exact I|].
  case_bool_decide; [|exact I].
  case_bool_decide; [|exact I].
  cbn [fst snd].
  split; [lia|]. split; [lia|]. split; [lia|].
  eexists _, _.
  rewrite !lookup_app_r by lia.
  replace (length (objects w) + 3 - length (objects w)) with 3 by lia.
  replace (length (objects w) + 4 - length (objects w)) with 4 by lia.
  split; reflexivity.
Qed.

(** C8.  Calling twice in a row with the same arguments gives the same
    outcome: the same exception, or two pairs of tables with equal
    contents; the second call also leaves the first pair of tables as it
    was. *)
Theorem preprocessing_deterministic (w : world obj) (train_df test_df : nat)
  (scaler_type : string) (encoder_type : option nat) (train test : DataFrame) :
  objects w !! train_df = Some (ODataFrame train) ->
  objects w !! test_df = Some (ODataFrame test) ->
  valid_encoder_type w encoder_type ->
  let (w1, r1) := preprocessing train_df test_df scaler_type encoder_type w in
  let (w2, r2) := preprocessing train_df test_df scaler_type encoder_type w1 in
  is_Some (tables_of w1 r1)
  /\ tables_of w2 r2 = tables_of w1 r1
  /\ tables_of w2 r1 = tables_of w1 r1.
Proof.
  intros Htr Hte Het.
  rewrite (preprocessing_run_world _ _ _ _ _ _ _ Htr Hte Het).
  set (new1 := fst (preprocessing_trace (length (objects w)) train test scaler_type)).
  assert (Htr1 : (objects w ++ new1) !! train_df = Some (ODataFrame train))
    by now apply lookup_app_l_Some.
  assert (Hte1 : (objects w ++ new1) !! test_df = Some (ODataFrame test))
    by now apply lookup_app_l_Some.
  assert (Het1 : valid_encoder_type (mkWorld (objects w ++ new1) (stdout w)) encoder_type).
  { destruct encoder_type as [l|]; [|exact I].
    destruct Het as [d Ed]. exists d. now apply lookup_app_l_Some. }
  rewrite (preprocessing_run _ _ _ _ _ _ _ _ Htr1 Hte1 Het1).
  destruct (tables_of_trace (objects w) (stdout w) (objects w ++ new1) (stdout w)
              train test scaler_type) as [Heq Hsome].
  fold new1 in Heq, Hsome.
  split; [exact Hsome|]. split; [now rewrite <- Heq|].
  destruct Hsome as [[e|t] Ht].
  - destruct (snd (preprocessing_trace (length (objects w)) train test scaler_type))
      as [e'|[a b]]; [reflexivity|].
    rewrite Ht. cbn [tables_of objects] in Ht |- *.
    destruct ((objects w ++ new1) !! a) as [[]|]; try discriminate;
      destruct ((objects w ++ new1) !! b) as [[]|]; discriminate.
  - rewrite Ht. eapply tables_of_app. exact Ht.
Qed.

(** What a call does on a training table with at least one categorical
    column, whatever [encoder_type] is: with [scaler_type] ['minmax'] or
    ['robust'] it raises [TypeError] at the three-argument [append] of the
    first loop iteration, having allocated only the list with the numeric
    step; with any other [scaler_type] the read of the unbound local
    [scaler] on line 77 raises [UnboundLocalError] before the loop. *)
Theorem categorical_column_raises (w : world obj) (train_df test_df : nat)
  (scaler_type : string) (encoder_type : option nat) (train test : DataFrame) :
  objects w !! train_df = Some (ODataFrame train) ->
  objects w !! test_df = Some (ODataFrame test) ->
  valid_encoder_type w encoder_type ->
  columns (select_dtypes [object; category] train) <> [] ->
  preprocessing train_df test_df scaler_type encoder_type w
  = match scaler_of scaler_type with
    | Some sc => (mkWorld (objects w ++ [OList (num_step sc train)]) (stdout w), inl TypeError)
    | None => (w, inl UnboundLocalError)
    end.
Proof.
  intros Htr Hte Het Hcat.
  rewrite (preprocessing_run_world _ _ _ _ _ _ _ Htr Hte Het).
  unfold preprocessing_trace.
  destruct (scaler_of scaler_type) as [sc|].
  - destruct (columns (select_dtypes [object; category] train)); [congruence|reflexivity].
  - destruct w. cbn. now rewrite app_nil_r.
Qed.

(** C6.  A two-category column mapped to ['label'] or to ['ordinal'] gets
    no output column: the call raises [TypeError] at the three-argument
    [append] and returns no table. *)
Theorem label_ordinal_column_raises :
  preprocessing 0 1 "minmax" (Some 2) (world_with city_train city_train {[ "city" := "label" ]})
  = (mkWorld (objects (world_with city_train city_train {[ "city" := "label" ]})
              ++ [OList (num_step MinMaxScaler city_train)]) [],
     inl TypeError)
  /\ preprocessing 0 1 "minmax" (Some 2)
       (world_with city_train city_train {[ "city" := "ordinal" ]})
     = (mkWorld (objects (world_with city_train city_train {[ "city" := "ordinal" ]})
                 ++ [OList (num_step MinMaxScaler city_train)]) [],
        inl TypeError).
Proof.
  split.
  - rewrite (preprocessing_run_world _ 0 1 _ (Some 2) city_train city_train);
      [reflexivity..|]. now eexists.
  - rewrite (preprocessing_run_world _ 0 1 _ (Some 2) city_train city_train);
      [reflexivity..|]. now eexists.
Qed.

End Facts.

(** *** The statements above at concrete tables *)

Lemma preprocessing_default_scaler_raises_witness :
  objects numeric_world !! 0 = Some (ODataFrame numeric_train)
  /\ preprocessing (sk := minmax_sklearn) 0 1 "standard" None numeric_world
     = (numeric_world, inl UnboundLocalError).
Proof.
  split; [reflexivity|].
  apply (preprocessing_default_scaler_raises (sk := minmax_sklearn)
           numeric_world 0 1 None numeric_train).
  reflexivity.
Defined.

Lemma preprocessing_frame_witness :
  let (w', r) := preprocessing (sk := minmax_sklearn) 0 1 "minmax" None numeric_world in
  (exists news, objects w' = objects numeric_world ++ news)
  /\ stdout w' = stdout numeric_world
  /\ objects w' !! 0 = Some (ODataFrame numeric_train)
  /\ objects w' !! 1 = Some (ODataFrame numeric_test)
  /\ match r with
     | inl _ => True
     | inr (out1, out2) =>
         length (objects numeric_world) <= out1 /\ length (objects numeric_world) <= out2
         /\ out1 <> out2
         /\ exists f1 f2, objects w' !! out1 = Some (ODataFrame f1)
                          /\ objects w' !! out2 = Some (ODataFrame f2)
     end.
Proof.
  apply (preprocessing_frame (sk := minmax_sklearn) numeric_world 0 1 "minmax" None
           numeric_train numeric_test).
  - reflexivity.
  - reflexivity.
  - exact I.
Defined.

Lemma preprocessing_deterministic_witness :
  let (w1, r1) := preprocessing (sk := minmax_sklearn) 0 1 "minmax" None numeric_world in
  let (w2, r2) := preprocessing (sk := minmax_sklearn) 0 1 "minmax" None w1 in
  is_Some (tables_of w1 r1)
  /\ tables_of w2 r2 = tables_of w1 r1
  /\ tables_of w2 r1 = tables_of w1 r1.
Proof.
  apply (preprocessing_deterministic (sk := minmax_sklearn) numeric_world 0 1 "minmax" None
           numeric_train numeric_test).
  - reflexivity.
  - reflexivity.
  - exact I.
Defined.

Lemma categorical_column_raises_witness :
  columns (select_dtypes [object; category] city_train) <> []
  /\ preprocessing (sk := minmax_sklearn) 0 1 "minmax" None city_world
     = (mkWorld (objects city_world ++ [OList (num_step MinMaxScaler city_train)]) [],
        inl TypeError).
Proof.
  split; [discriminate|].
  apply (categorical_column_raises (sk := minmax_sklearn) city_world 0 1 "minmax" None
           city_train city_train).
  - reflexivity.
  - reflexivity.
  - exact I.
  - discriminate.
Defined.

(** C9.  On the table [{"x": [1, 2, 3], "city": ["NY", "LA", "NY"]}],
    which has a categorical column, the call with the default
    [scaler_type='standard'] does not raise [TypeError] at the [append] of
    line 98: the slip on line 77 raises [UnboundLocalError] first, and the
    loop over the categorical columns is never entered. *)
Lemma categorical_column_default_scaler_not_type_error :
  columns (select_dtypes [object; category] city_train) <> []
  /\ preprocessing (sk := minmax_sklearn) 0 1 "standard" None city_world
     = (city_world, inl UnboundLocalError)
  /\ snd (preprocessing (sk := minmax_sklearn) 0 1 "standard" None city_world)
     <> inl TypeError.
Proof.
  split; [discriminate|]. split; [reflexivity|]. discriminate.
Qed.

End PreprocessingFacts.

(** ** utils/hypothesis_testing.py *)

Module HypothesisTestingFacts.
Import PyFacts HypothesisTesting.

Section Facts.
Context {pg : Pingouin}.
Implicit Types (w : world obj) (m : module).

Lemma bind_list_append {B} l x o (f : unit -> run obj B) w :
  objects w !! l = Some o ->
  bind (list_append l x) f w
  = f tt (mkWorld (<[l := OList (items_of o ++ [x])]> (objects w)) (stdout w)).
Proof.
  intros E. unfold list_append.
  now rewrite bind_bind, (bind_load _ _ _ _ E), bind_store.
Qed.

(** Overwriting the list at [target] with itself plus [x] is [appended]. *)
Lemma appended_insert (objs : list obj) out out' target xs x :
  objs !! target = Some (OList xs) ->
  appended (mkWorld objs out) (mkWorld (<[target := OList (xs ++ [x])]> objs) out') target x.
Proof.
  intros E. exists xs. cbn [objects].
  split; [exact E|]. split.
  - apply list_lookup_insert_eq. eapply lookup_lt_Some; eassumption.
  - intros l Hl. now apply list_lookup_insert_ne.
Qed.

(** Closed form of a call of [chi2_independence_test] whose library call
    returns. *)
Lemma chi2_independence_test_run m data main_cat sec_cat sig_col no_sig_col alpha w stats xs :
  let s := default (sig_col_default (chi2_defaults m)) sig_col in
  let n := default (no_sig_col_default (chi2_defaults m)) no_sig_col in
  let sig := chi2_significant stats (default alpha_default alpha) in
  chi2_independence data main_cat sec_cat = inr stats ->
  objects w !! (if sig then s else n) = Some (OList xs) ->
  exists out,
    chi2_independence_test m data main_cat sec_cat sig_col no_sig_col alpha w
    = (mkWorld (<[(if sig then s else n) := OList (xs ++ [sec_cat])]> (objects w)) out,
       inr (s, n)).
Proof.
  intros s n sig Hlib Hxs. destruct w as [objs out]. cbn [objects] in Hxs.
  unfold chi2_independence_test. fold s n.
  rewrite Hlib, bind_lift, !bind_print.
  fold (chi2_significant stats (default alpha_default alpha)).
  subst sig. destruct (chi2_significant stats (default alpha_default alpha));
    rewrite bind_bind, bind_print; erewrite bind_list_append by exact Hxs;
    rewrite bind_print;
    eexists; reflexivity.
Qed.

(** Closed form of a call of [kruskal_wallis_test] whose library call
    returns. *)
Lemma kruskal_wallis_test_run m data cat_feat num_feat sig_col no_sig_col alpha w results xs :
  let s := default (sig_col_default (kruskal_defaults m)) sig_col in
  let n := default (no_sig_col_default (kruskal_defaults m)) no_sig_col in
  let sig := float_lt (kruskal_p_unc results) (default alpha_default alpha) in
  kruskal data num_feat cat_feat = inr results ->
  objects w !! (if sig then s else n) = Some (OList xs) ->
  exists out,
    kruskal_wallis_test m data cat_feat num_feat sig_col no_sig_col alpha w
    = (mkWorld (<[(if sig then s else n) := OList (xs ++ [num_feat])]> (objects w)) out,
       inr (s, n)).
Proof.
  intros s n sig Hlib Hxs. destruct w as [objs out]. cbn [objects] in Hxs.
  unfold kruskal_wallis_test. fold s n.
  rewrite Hlib, bind_lift, !bind_print.
  subst sig. destruct (float_lt (kruskal_p_unc results) (default alpha_default alpha));
    rewrite bind_bind, bind_print; erewrite bind_list_append by exact Hxs;
    rewrite bind_print;
    eexists; reflexivity.
Qed.

(** Two appends in a row, each to the significant or to the other list. *)
Lemma appended_twice w w1 w2 (s n : nat) (b1 b2 : bool) x1 x2 xs ys :
  s <> n ->
  objects w !! s = Some (OList xs) ->
  objects w !! n = Some (OList ys) ->
  appended w w1 (if b1 then s else n) x1 ->
  appended w1 w2 (if b2 then s else n) x2 ->
  objects w2 !! s = Some (OList (xs ++ names_where true [(b1, x1); (b2, x2)]))
  /\ objects w2 !! n = Some (OList (ys ++ names_where false [(b1, x1); (b2, x2)])).
Proof.
  intros Hsn Hs Hn (l1 & E1 & E1' & O1) (l2 & E2 & E2' & O2).
  assert (Hns : n <> s) by congruence.
  destruct b1, b2; cbn [names_where filter list_filter fst snd map] in *;
    repeat case_decide; try congruence; cbn [map snd];
    rewrite ?app_nil_r.
  - rewrite E1' in E2. rewrite Hs in E1. simplify_eq.
    split; [now rewrite E2', <- app_assoc|].
    now rewrite (O2 _ Hns), (O1 _ Hns).
  - rewrite (O1 _ Hns), Hn in E2. rewrite Hs in E1. simplify_eq.
    split; [now rewrite (O2 _ Hsn), E1'|now rewrite E2'].
  - rewrite (O1 _ Hsn), Hs in E2. rewrite Hn in E1. simplify_eq.
    split; [now rewrite E2'|now rewrite (O2 _ Hns), E1'].
  - rewrite E1' in E2. rewrite Hn in E1. simplify_eq.
    split; [now rewrite (O2 _ Hsn), (O1 _ Hsn)|].
    now rewrite E2', <- app_assoc.
Qed.

(** C10.  A call of either wrapper whose library call returns appends the
    tested name ([sec_cat], resp. [num_feat]) to the list [sig_col] when
    the test is significant at level [alpha] and to [no_sig_col] otherwise,
    changes no other object, and returns the two references it was given.
    The default lists are created once, when the module is executed, as
    four distinct empty lists; calls that omit the two arguments therefore
    return the same two objects every time and their names accumulate. *)
Theorem significance_lists_appended_and_shared :
  (forall m data main_cat sec_cat sig_col no_sig_col alpha w stats,
      let s := default (sig_col_default (chi2_defaults m)) sig_col in
      let n := default (no_sig_col_default (chi2_defaults m)) no_sig_col in
      let target := if chi2_significant stats (default alpha_default alpha) then s else n in
      chi2_independence data main_cat sec_cat = inr stats ->
      is_Some (objects w !! target) ->
      exists w',
        chi2_independence_test m data main_cat sec_cat sig_col no_sig_col alpha w
        = (w', inr (s, n))
        /\ appended w w' target sec_cat)
  /\ (forall m data cat_feat num_feat sig_col no_sig_col alpha w results,
         let s := default (sig_col_default (kruskal_defaults m)) sig_col in
         let n := default (no_sig_col_default (kruskal_defaults m)) no_sig_col in
         let target :=
           if float_lt (kruskal_p_unc results) (default alpha_default alpha) then s else n in
         kruskal data num_feat cat_feat = inr results ->
         is_Some (objects w !! target) ->
         exists w',
           kruskal_wallis_test m data cat_feat num_feat sig_col no_sig_col alpha w
           = (w', inr (s, n))
           /\ appended w w' target num_feat)
  /\ (forall w0 : world obj,
         exists m,
           import_module w0
           = (mkWorld (objects w0 ++ [OList []; OList []; OList []; OList []]) (stdout w0),
              inr m)
           /\ sig_col_default (chi2_defaults m) = length (objects w0)
           /\ no_sig_col_default (chi2_defaults m) = length (objects w0) + 1
           /\ sig_col_default (kruskal_defaults m) = length (objects w0) + 2
           /\ no_sig_col_default (kruskal_defaults m) = length (objects w0) + 3)
  /\ (forall m data1 data2 main1 sec1 main2 sec2 alpha1 alpha2 w stats1 stats2 xs ys,
         let s := sig_col_default (chi2_defaults m) in
         let n := no_sig_col_default (chi2_defaults m) in
         let calls := [(chi2_significant stats1 (default alpha_default alpha1), sec1);
                       (chi2_significant stats2 (default alpha_default alpha2), sec2)] in
         s <> n ->
         objects w !! s = Some (OList xs) ->
         objects w !! n = Some (OList ys) ->
         chi2_independence data1 main1 sec1 = inr stats1 ->
         chi2_independence data2 main2 sec2 = inr stats2 ->
         exists w1 w2,
           chi2_independence_test m data1 main1 sec1 None None alpha1 w = (w1, inr (s, n))
           /\ chi2_independence_test m data2 main2 sec2 None None alpha2 w1 = (w2, inr (s, n))
           /\ objects w2 !! s = Some (OList (xs ++ names_where true calls))
           /\ objects w2 !! n = Some (OList (ys ++ names_where false calls)))
  /\ (forall m data1 data2 cat1 num1 cat2 num2 alpha1 alpha2 w res1 res2 xs ys,
         let s := sig_col_default (kruskal_defaults m) in
         let n := no_sig_col_default (kruskal_defaults m) in
         let calls := [(float_lt (kruskal_p_unc res1) (default alpha_default alpha1), num1);
                       (float_lt (kruskal_p_unc res2) (default alpha_default alpha2), num2)] in
         s <> n ->
         objects w !! s = Some (OList xs) ->
         objects w !! n = Some (OList ys) ->
         kruskal data1 num1 cat1 = inr res1 ->
         kruskal data2 num2 cat2 = inr res2 ->
         exists w1 w2,
           kruskal_wallis_test m data1 cat1 num1 None None alpha1 w = (w1, inr (s, n))
           /\ kruskal_wallis_test m data2 cat2 num2 None None alpha2 w1 = (w2, inr (s, n))
           /\ objects w2 !! s = Some (OList (xs ++ names_where true calls))
           /\ objects w2 !! n = Some (OList (ys ++ names_where false calls))).
Proof.
  assert (Hchi :
    forall m data main_cat sec_cat sig_col no_sig_col alpha w stats,
      let s := default (sig_col_default (chi2_defaults m)) sig_col in
      let n := default (no_sig_col_default (chi2_defaults m)) no_sig_col in
      let target := if chi2_significant stats (default alpha_default alpha) then s else n in
      chi2_independence data main_cat sec_cat = inr stats ->
      is_Some (objects w !! target) ->
      exists w',
        chi2_independence_test m data main_cat sec_cat sig_col no_sig_col alpha w
        = (w', inr (s, n))
        /\ appended w w' target sec_cat).
  { intros m data main_cat sec_cat sig_col no_sig_col alpha w stats s n target Hlib [[xs] Hxs].
    destruct (chi2_independence_test_run m data main_cat sec_cat sig_col no_sig_col alpha
                w stats xs Hlib Hxs) as [out Hrun].
    eexists. split; [exact Hrun|].
    destruct w as [objs out0]. now apply appended_insert. }
  assert (Hkw :
    forall m data cat_feat num_feat sig_col no_sig_col alpha w results,
      let s := default (sig_col_default (kruskal_defaults m)) sig_col in
      let n := default (no_sig_col_default (kruskal_defaults m)) no_sig_col in
      let target :=
        if float_lt (kruskal_p_unc results) (default alpha_default alpha) then s else n in
      kruskal data num_feat cat_feat = inr results ->
      is_Some (objects w !! target) ->
      exists w',
        kruskal_wallis_test m data cat_feat num_feat sig_col no_sig_col alpha w
        = (w', inr (s, n))
        /\ appended w w' target num_feat).
  { intros m data cat_feat num_feat sig_col no_sig_col alpha w results s n target Hlib
      [[xs] Hxs].
    destruct (kruskal_wallis_test_run m data cat_feat num_feat sig_col no_sig_col alpha
                w results xs Hlib Hxs) as [out Hrun].
    eexists. split; [exact Hrun|].
    destruct w as [objs out0]. now apply appended_insert. }
  split; [exact Hchi|]. split; [exact Hkw|]. split; [|split].
  - intros [objs out]. eexists. unfold import_module, def_defaults.
    rewrite <- (app_nil_r objs) at 1.
    rewrite !bind_bind, bind_alloc, bind_bind, bind_alloc, bind_ret.
    rewrite !bind_bind, bind_alloc, bind_bind, bind_alloc, bind_ret.
    cbn [objects stdout app length sig_col_default no_sig_col_default chi2_defaults
           kruskal_defaults].
    split; [reflexivity|]. cbn. repeat split; lia.
  - intros m data1 data2 main1 sec1 main2 sec2 alpha1 alpha2 w stats1 stats2 xs ys s n calls
      Hsn Hs Hn Hlib1 Hlib2.
    destruct (Hchi m data1 main1 sec1 None None alpha1 w stats1 Hlib1) as (w1 & Hrun1 & Happ1).
    { cbn [default]. fold s n. destruct (chi2_significant _ _); eauto. }
    cbn [default] in Hrun1, Happ1. fold s n in Hrun1, Happ1.
    destruct (Hchi m data2 main2 sec2 None None alpha2 w1 stats2 Hlib2) as (w2 & Hrun2 & Happ2).
    { cbn [default]. fold s n. destruct Happ1 as (l1 & E1 & E1' & O1).
      destruct (chi2_significant stats1 _), (chi2_significant stats2 _);
        rewrite ?E1', ?(O1 _ Hsn), ?(O1 _ (not_eq_sym Hsn)); eauto. }
    cbn [default] in Hrun2, Happ2. fold s n in Hrun2, Happ2.
    exists w1, w2. split; [exact Hrun1|]. split; [exact Hrun2|].
    exact (appended_twice w w1 w2 s n _ _ sec1 sec2 xs ys Hsn Hs Hn Happ1 Happ2).
  - intros m data1 data2 cat1 num1 cat2 num2 alpha1 alpha2 w res1 res2 xs ys s n calls
      Hsn Hs Hn Hlib1 Hlib2.
    destruct (Hkw m data1 cat1 num1 None None alpha1 w res1 Hlib1) as (w1 & Hrun1 & Happ1).
    { cbn [default]. fold s n. destruct (float_lt _ _); eauto. }
    cbn [default] in Hrun1, Happ1. fold s n in Hrun1, Happ1.
    destruct (Hkw m data2 cat2 num2 None None alpha2 w1 res2 Hlib2) as (w2 & Hrun2 & Happ2).
    { cbn [default]. fold s n. destruct Happ1 as (l1 & E1 & E1' & O1).
      destruct (float_lt (kruskal_p_unc res1) _), (float_lt (kruskal_p_unc res2) _);
        rewrite ?E1', ?(O1 _ Hsn), ?(O1 _ (not_eq_sym Hsn)); eauto. }
    cbn [default] in Hrun2, Happ2. fold s n in Hrun2, Happ2.
    exists w1, w2. split; [exact Hrun1|]. split; [exact Hrun2|].
    exact (appended_twice w w1 w2 s n _ _ num1 num2 xs ys Hsn Hs Hn Happ1 Happ2).
Qed.

End Facts.

(** *** The statement above at concrete calls

    Two chi-squared calls and two Kruskal-Wallis calls that omit both
    lists, the first significant and the second not, run one after the
    other in the world left by executing the module. *)
Lemma significance_lists_appended_and_shared_witness :
  import_module (mkWorld [] []) = (imported_world, inr imported_module)
  /\ (exists w1 w2,
         chi2_independence_test (pg := direct_pingouin) imported_module [1 # 100; 1 # 2]%Q
           "group" "smoker" None None None imported_world = (w1, inr (0, 1))
         /\ chi2_independence_test (pg := direct_pingouin) imported_module [1 # 2]%Q
              "group" "region" None None None w1 = (w2, inr (0, 1))
         /\ objects w2 !! 0 = Some (OList ["smoker"])
         /\ objects w2 !! 1 = Some (OList ["region"]))
  /\ (exists w1 w2,
         kruskal_wallis_test (pg := direct_pingouin) imported_module [1 # 100]%Q
           "group" "age" None None None imported_world = (w1, inr (2, 3))
         /\ kruskal_wallis_test (pg := direct_pingouin) imported_module [1 # 2]%Q
              "group" "height" None None None w1 = (w2, inr (2, 3))
         /\ objects w2 !! 2 = Some (OList ["age"])
         /\ objects w2 !! 3 = Some (OList ["height"])).
Proof.
  destruct (significance_lists_appended_and_shared (pg := direct_pingouin))
    as (_ & _ & _ & Hchi & Hkw).
  split; [reflexivity|]. split.
  - apply (Hchi imported_module [1 # 100; 1 # 2]%Q [1 # 2]%Q "group" "smoker" "group" "region"
             None None imported_world [1 # 100; 1 # 2]%Q [1 # 2]%Q [] []).
    + discriminate.
    + reflexivity.
    + reflexivity.
    + reflexivity.
    + reflexivity.
  - apply (Hkw imported_module [1 # 100]%Q [1 # 2]%Q "group" "age" "group" "height"
             None None imported_world (1 # 100)%Q (1 # 2)%Q [] []).
    + discriminate.
    + reflexivity.
    + reflexivity.
    + reflexivity.
    + reflexivity.
Defined.

End HypothesisTestingFacts.

(** ** data/make_dataset.py: further properties of [preprocessing] *)

Module PreprocessingExtra.
Import PyFacts MakeDataset PreprocessingFacts.

Section Facts.
Context {sk : Sklearn}.
Implicit Types (w : world obj) (train test : DataFrame).

(** [scaler_of] answers only for the two names the first two tests accept. *)
Lemma scaler_of_Some scaler_type sc :
  scaler_of scaler_type = Some sc ->
  (scaler_type = "minmax" /\ sc = MinMaxScaler)
  \/ (scaler_type = "robust" /\ sc = RobustScaler).
Proof.
  unfold scaler_of.
  destruct (String.eqb scaler_type "minmax") eqn:E1.
  { intros [= <-]. left. split; [now apply String.eqb_eq|reflexivity]. }
  destruct (String.eqb scaler_type "robust") eqn:E2; [|discriminate].
  intros [= <-]. right. split; [now apply String.eqb_eq|reflexivity].
Qed.

(** The closed form of a run that returns. *)
Lemma trace_returns n train test scaler_type news out1 out2 :
  preprocessing_trace n train test scaler_type = (news, inr (out1, out2)) ->
  exists sc st a1 a2,
    scaler_of scaler_type = Some sc
    /\ columns (select_dtypes [object; category] train) = []
    /\ ct_fit_transform (num_step sc train) train = inr (st, a1)
    /\ ct_transform st test = inr a2
    /\ shape1 a1 = length (columns (select_dtypes [number] train))
    /\ shape1 a2 = length (columns (select_dtypes [number] train))
    /\ out1 = n + 3 /\ out2 = n + 4
    /\ news = [OList (num_step sc train); OColumnTransformer n (Some st); OList [];
               ODataFrame (frame_of_array a1 (columns (select_dtypes [number] train)));
               ODataFrame (frame_of_array a2 (columns (select_dtypes [number] train)))].
Proof.
  unfold preprocessing_trace.
  destruct (scaler_of scaler_type) as [sc|]; [|discriminate].
  destruct (columns (select_dtypes [object; category] train)); [|discriminate].
  destruct (ct_fit_transform (num_step sc train) train) as [e|[st a1]] eqn:Hfit;
    [discriminate|].
  destruct (ct_transform st test) as [e|a2] eqn:Htra; [discriminate|].
  case_bool_decide; [|discriminate].
  case_bool_decide; [|discriminate].
  intros [= <- <- <-]. exists sc, st, a1, a2. repeat split; congruence.
Qed.

Lemma run_returns w w' train_df test_df scaler_type encoder_type train test out1 out2 :
  objects w !! train_df = Some (ODataFrame train) ->
  objects w !! test_df = Some (ODataFrame test) ->
  valid_encoder_type w encoder_type ->
  preprocessing train_df test_df scaler_type encoder_type w = (w', inr (out1, out2)) ->
  exists news,
    preprocessing_trace (length (objects w)) train test scaler_type
    = (news, inr (out1, out2))
    /\ w' = mkWorld (objects w ++ news) (stdout w).
Proof.
  intros Htr Hte Het Hrun.
  rewrite (preprocessing_run_world _ _ _ _ _ _ _ Htr Hte Het) in Hrun.
  destruct (preprocessing_trace (length (objects w)) train test scaler_type) as [news r].
  cbn [fst snd] in Hrun. injection Hrun as <- ->. now exists news.
Qed.

(** X1.  [encoder_type] has no influence on a call: with the same tables
    and the same [scaler_type], any two admissible values of
    [encoder_type] ([None] or any dict) give the same final world and the
    same result. *)
Theorem preprocessing_ignores_encoder_type w train_df test_df scaler_type
  (encoder_type encoder_type' : option nat) train test :
  objects w !! train_df = Some (ODataFrame train) ->
  objects w !! test_df = Some (ODataFrame test) ->
  valid_encoder_type w encoder_type ->
  valid_encoder_type w encoder_type' ->
  preprocessing train_df test_df scaler_type encoder_type w
  = preprocessing train_df test_df scaler_type encoder_type' w.
Proof.
  intros Htr Hte Het Het'.
  now rewrite (preprocessing_run_world _ _ _ _ _ _ _ Htr Hte Het),
              (preprocessing_run_world _ _ _ _ _ _ _ Htr Hte Het').
Qed.

(** X2.  A call returns only if [scaler_type] is ['minmax'] or ['robust']
    and the training table has no object or category column.  The two
    tables it returns are built from the array the transformer gave when
    fit on the training table and from the array the state fitted there
    gave for the test table; the test table is never fit on. *)
Theorem preprocessing_returns_only_if w w' train_df test_df scaler_type encoder_type
  train test (out1 out2 : nat) :
  objects w !! train_df = Some (ODataFrame train) ->
  objects w !! test_df = Some (ODataFrame test) ->
  valid_encoder_type w encoder_type ->
  preprocessing train_df test_df scaler_type encoder_type w = (w', inr (out1, out2)) ->
  (scaler_type = "minmax" \/ scaler_type = "robust")
  /\ columns (select_dtypes [object; category] train) = []
  /\ exists sc st a1 a2,
       ct_fit_transform (num_step sc train) train = inr (st, a1)
       /\ ct_transform st test = inr a2
       /\ tables_of w' (inr (out1, out2))
          = Some (inr (frame_of_array a1 (columns (select_dtypes [number] train)),
                       frame_of_array a2 (columns (select_dtypes [number] train)))).
Proof.
  intros Htr Hte Het Hrun.
  destruct (run_returns _ _ _ _ _ _ _ _ _ _ Htr Hte Het Hrun) as (news & Htrace & ->).
  destruct (trace_returns _ _ _ _ _ _ _ Htrace)
    as (sc & st & a1 & a2 & Hsc & Hcat & Hfit & Htra & _ & _ & -> & -> & ->).
  split; [destruct (scaler_of_Some _ _ Hsc) as [[-> _]|[-> _]]; auto|].
  split; [exact Hcat|].
  exists sc, st, a1, a2. split; [exact Hfit|]. split; [exact Htra|].
  cbn [tables_of objects].
  rewrite !lookup_app_r by lia.
  replace (length (objects w) + 3 - length (objects w)) with 3 by lia.
  replace (length (objects w) + 4 - length (objects w)) with 4 by lia.
  reflexivity.
Qed.

(** X3.  Conversely: with ['minmax'] or ['robust'], no object or category
    column, a fit and a transform that return arrays with one column per
    numeric column, the call returns.  It leaves behind the list holding
    the single step [('num', scaler, num_feat)], the fitted transformer,
    the empty list of categorical labels and the two new tables, in that
    order, and returns references to the two tables. *)
Theorem preprocessing_returns_if w train_df test_df scaler_type encoder_type train test
  sc st a1 a2 :
  objects w !! train_df = Some (ODataFrame train) ->
  objects w !! test_df = Some (ODataFrame test) ->
  valid_encoder_type w encoder_type ->
  scaler_of scaler_type = Some sc ->
  columns (select_dtypes [object; category] train) = [] ->
  ct_fit_transform (num_step sc train) train = inr (st, a1) ->
  ct_transform st test = inr a2 ->
  shape1 a1 = length (columns (select_dtypes [number] train)) ->
  shape1 a2 = length (columns (select_dtypes [number] train)) ->
  preprocessing train_df test_df scaler_type encoder_type w
  = (mkWorld
       (objects w
        ++ [OList (num_step sc train);
            OColumnTransformer (length (objects w)) (Some st);
            OList [];
            ODataFrame (frame_of_array a1 (columns (select_dtypes [number] train)));
            ODataFrame (frame_of_array a2 (columns (select_dtypes [number] train)))])
       (stdout w),
     inr (length (objects w) + 3, length (objects w) + 4)).
Proof.
  intros Htr Hte Het Hsc Hcat Hfit Htra H1 H2.
  rewrite (preprocessing_run_world _ _ _ _ _ _ _ Htr Hte Het).
  unfold preprocessing_trace. rewrite Hsc, Hcat, Hfit, Htra.
  rewrite !bool_decide_eq_true_2 by congruence. reflexivity.
Qed.

(** X4.  Exceptions of the library are not caught.  On a table without
    object or category columns and with ['minmax'] or ['robust']: if
    fitting raises, the call raises the same exception with the
    transformer left unfitted; if fitting returns and transforming the test
    table raises, the call raises that exception.  In both cases no table
    is built. *)
Theorem preprocessing_propagates_library_errors w train_df test_df scaler_type encoder_type
  train test sc :
  objects w !! train_df = Some (ODataFrame train) ->
  objects w !! test_df = Some (ODataFrame test) ->
  valid_encoder_type w encoder_type ->
  scaler_of scaler_type = Some sc ->
  columns (select_dtypes [object; category] train) = [] ->
  match ct_fit_transform (num_step sc train) train with
  | inl e =>
      preprocessing train_df test_df scaler_type encoder_type w
      = (mkWorld (objects w ++ [OList (num_step sc train);
                                OColumnTransformer (length (objects w)) None])
           (stdout w), inl e)
  | inr (st, _) =>
      forall e, ct_transform st test = inl e ->
        preprocessing train_df test_df scaler_type encoder_type w
        = (mkWorld (objects w ++ [OList (num_step sc train);
                                  OColumnTransformer (length (objects w)) (Some st)])
             (stdout w), inl e)
  end.
Proof.
  intros Htr Hte Het Hsc Hcat.
  rewrite (preprocessing_run_world _ _ _ _ _ _ _ Htr Hte Het).
  unfold preprocessing_trace. rewrite Hsc, Hcat.
  destruct (ct_fit_transform (num_step sc train) train) as [e|[st a1]]; [reflexivity|].
  intros e He. now rewrite He.
Qed.

(** A table built from an array with [n] rows has [n] index entries and
    [n] values in every column. *)
Lemma frame_of_array_well_formed arr cols n :
  array_rows n arr ->
  index_len (frame_of_array arr cols) = n /\ well_formed (frame_of_array arr cols).
Proof.
  intros [H0 Hd]. split; [exact H0|].
  unfold well_formed, frame_of_array. cbn [series index_len].
  generalize 0 at 1. induction cols as [|c cols IH]; intros start; cbn; constructor.
  - cbn. now rewrite length_map, Hd, H0.
  - apply IH.
Qed.

(** X5.  If the library returns one array row per table row, a call that
    returns gives a first table with as many rows as the training table
    and a second with as many rows as the test table, each column holding
    exactly that many values. *)
Theorem preprocessing_keeps_row_counts w w' train_df test_df scaler_type encoder_type
  train test (out1 out2 : nat) :
  keeps_rows ->
  objects w !! train_df = Some (ODataFrame train) ->
  objects w !! test_df = Some (ODataFrame test) ->
  valid_encoder_type w encoder_type ->
  preprocessing train_df test_df scaler_type encoder_type w = (w', inr (out1, out2)) ->
  exists f1 f2,
    objects w' !! out1 = Some (ODataFrame f1)
    /\ objects w' !! out2 = Some (ODataFrame f2)
    /\ index_len f1 = index_len train /\ well_formed f1
    /\ index_len f2 = index_len test /\ well_formed f2.
Proof.
  intros [Kfit Ktra] Htr Hte Het Hrun.
  destruct (run_returns _ _ _ _ _ _ _ _ _ _ Htr Hte Het Hrun) as (news & Htrace & ->).
  destruct (trace_returns _ _ _ _ _ _ _ Htrace)
    as (sc & st & a1 & a2 & _ & _ & Hfit & Htra & _ & _ & -> & -> & ->).
  eexists _, _. cbn [objects].
  rewrite !lookup_app_r by lia.
  replace (length (objects w) + 3 - length (objects w)) with 3 by lia.
  replace (length (objects w) + 4 - length (objects w)) with 4 by lia.
  split; [reflexivity|]. split; [reflexivity|].
  destruct (frame_of_array_well_formed a1 (columns (select_dtypes [number] train)) _
              (Kfit _ _ _ _ Hfit)) as [? ?].
  destruct (frame_of_array_well_formed a2 (columns (select_dtypes [number] train)) _
              (Ktra _ _ _ Htra)) as [? ?].
  auto.
Qed.

(** X6.  A call that returns keeps exactly the labels of the number-dtype
    columns of the training table: a label is a column of the first
    returned table if and only if the training table has a column of dtype
    number with that label.  Columns of any other dtype (boolean,
    datetime, ...) are dropped without notice. *)
Theorem preprocessing_drops_other_dtypes w w' train_df test_df scaler_type encoder_type
  train test (out1 out2 : nat) :
  objects w !! train_df = Some (ODataFrame train) ->
  objects w !! test_df = Some (ODataFrame test) ->
  valid_encoder_type w encoder_type ->
  preprocessing train_df test_df scaler_type encoder_type w = (w', inr (out1, out2)) ->
  exists f1,
    objects w' !! out1 = Some (ODataFrame f1)
    /\ forall label,
         label ∈ columns f1
         <-> exists s, s ∈ series train /\ name s = label /\ dtype_of s = number.
Proof.
  intros Htr Hte Het Hrun.
  destruct (run_returns _ _ _ _ _ _ _ _ _ _ Htr Hte Het Hrun) as (news & Htrace & ->).
  destruct (trace_returns _ _ _ _ _ _ _ Htrace)
    as (sc & st & a1 & a2 & _ & _ & _ & _ & _ & _ & -> & -> & ->).
  eexists. cbn [objects].
  rewrite !lookup_app_r by lia.
  replace (length (objects w) + 3 - length (objects w)) with 3 by lia.
  split; [reflexivity|].
  intros label. rewrite columns_frame_of_array.
  unfold columns, select_dtypes. cbn [series].
  rewrite list_elem_of_fmap. split.
  - intros (s & -> & Hs). apply list_elem_of_filter in Hs as [Hd Hs].
    exists s. split; [exact Hs|]. split; [reflexivity|].
    now apply list_elem_of_singleton in Hd.
  - intros (s & Hs & <- & Hd). exists s. split; [reflexivity|].
    apply list_elem_of_filter. split; [|exact Hs].
    rewrite Hd. now apply list_elem_of_singleton.
Qed.

(** X7.  The encoder chosen for a column depends only on the entry the
    dict holds for that column: ['label'] gives [LabelEncoder], ['ordinal']
    gives [OrdinalEncoder], every other entry (also ['onehot'], and names
    in another spelling) and a missing entry give
    [OneHotEncoder(sparse_output=False, drop='first')], as do the empty
    dict and [None]. *)
Theorem select_encoder_by_entry (encoder_type : option (gmap string string))
  (cat_col : string) :
  select_encoder encoder_type cat_col
  = match get encoder_type cat_col with
    | Some kind =>
        if String.eqb kind "label" then LabelEncoder
        else if String.eqb kind "ordinal" then OrdinalEncoder
        else OneHotEncoder false (Some "first")
    | None => OneHotEncoder false (Some "first")
    end.
Proof.
  unfold select_encoder. destruct encoder_type as [d|]; [|reflexivity].
  cbn [get contains truthy].
  destruct (d !! cat_col) as [kind|] eqn:E.
  - assert (Hne : d <> ∅) by (intros ->; now rewrite lookup_empty in E).
    rewrite (bool_decide_eq_false_2 _ Hne).
    rewrite bool_decide_eq_true_2 by eauto. cbn [negb andb].
    destruct (String.eqb kind "label") eqn:E1.
    { apply String.eqb_eq in E1 as ->. now rewrite bool_decide_eq_true_2. }
    rewrite bool_decide_eq_false_2
      by (intros [= ->]; now rewrite String.eqb_refl in E1).
    destruct (String.eqb kind "ordinal") eqn:E2.
    { apply String.eqb_eq in E2 as ->. now rewrite bool_decide_eq_true_2. }
    now rewrite bool_decide_eq_false_2
      by (intros [= ->]; now rewrite String.eqb_refl in E2).
  - rewrite (bool_decide_eq_false_2 (is_Some None)) by (intros [? [=]]).
    now rewrite andb_false_r.
Qed.

(** The label loop is the loop of lines 111-116 inside [preprocessing]. *)
Lemma preprocessing_label_loop train_df test_df scaler_type encoder_type :
  preprocessing train_df test_df scaler_type encoder_type
  = (do train <- load_frame train_df;
     let num_feat := columns (select_dtypes [number] train) in
     let cat_feat := columns (select_dtypes [object; category] train) in
     do scaler <- select_scaler scaler_type;
     do transformers <-
       alloc (OList [VTuple [VStr "num"; VEstimator scaler; VIndex num_feat]]);
     for_each cat_feat (fun cat_col =>
       do et <- load_dict encoder_type;
       list_append transformers
         [VStr ("cat_" +:+ cat_col); VEstimator (select_encoder et cat_col);
          VIndex [cat_col]]);;
     do preprocessor <- alloc (OColumnTransformer transformers None);
     do train_preprocessed <- fit_transform preprocessor train_df;
     do test_preprocessed <- transform preprocessor test_df;
     do cat_col_names <- alloc (OList []);
     collect_cat_col_names preprocessor cat_col_names encoder_type cat_feat;;
     do cat_names <- load_list cat_col_names;
     let all_col_names :=
       num_feat
       ++ omap (fun v => match v with VStr s => Some s | _ => None end) cat_names in
     do train_df_preprocessed <- pd_DataFrame train_preprocessed all_col_names;
     do test_df_preprocessed <- pd_DataFrame test_preprocessed all_col_names;
     ret (train_df_preprocessed, test_df_preprocessed)).
Proof. reflexivity. Qed.

Lemma bind_load_dict_world {B} encoder_type et
  (f : option (gmap string string) -> run obj B) w :
  encoder_dict w encoder_type = Some et ->
  bind (load_dict encoder_type) f w = f et w.
Proof.
  unfold encoder_dict, load_dict. destruct encoder_type as [l|].
  - destruct (objects w !! l) as [[]|] eqn:E; try discriminate.
    intros [= <-]. now rewrite bind_bind, (bind_load _ _ _ _ E).
  - now intros [= <-].
Qed.

(** Overwriting the label list leaves the dict behind [encoder_type] as it
    is: a list and a dict are different objects. *)
Lemma encoder_dict_insert_list (objs : list obj) out l xs ys encoder_type et :
  objs !! l = Some (OList xs) ->
  encoder_dict (mkWorld objs out) encoder_type = Some et ->
  encoder_dict (mkWorld (<[l := OList ys]> objs) out) encoder_type = Some et.
Proof.
  intros Hl. unfold encoder_dict. destruct encoder_type as [k|]; [|trivial].
  cbn [objects]. destruct (objs !! k) as [[]|] eqn:E; try discriminate.
  intros [= <-]. rewrite list_lookup_insert_ne by congruence. now rewrite E.
Qed.

Lemma bind_feature_names_out {B} (p : nat) key cols ts st
  (f : list string -> run obj B) w :
  objects w !! p = Some (OColumnTransformer ts (Some st)) ->
  bind (feature_names_out p key cols) f w
  = match ct_feature_names_out st key cols with
    | inl e => (w, inl e)
    | inr names => f names w
    end.
Proof.
  intros E. unfold feature_names_out.
  rewrite bind_bind. erewrite bind_load by exact E. cbn beta iota.
  apply bind_lift.
Qed.

Lemma bind_list_extend {B} (l : nat) xs ys (f : unit -> run obj B) w :
  objects w !! l = Some (OList xs) ->
  bind (list_extend l ys) f w
  = f tt (mkWorld (<[l := OList (xs ++ ys)]> (objects w)) (stdout w)).
Proof.
  intros E. unfold list_extend, load_list.
  rewrite !bind_bind. erewrite bind_load by exact E. cbn beta iota.
  now rewrite bind_ret, bind_store.
Qed.

Lemma bind_list_append_one {B} (l : nat) xs x (f : unit -> run obj B) w :
  objects w !! l = Some (OList xs) ->
  bind (list_append l [x]) f w
  = f tt (mkWorld (<[l := OList (xs ++ [x])]> (objects w)) (stdout w)).
Proof.
  intros E. unfold list_append, load_list.
  rewrite !bind_bind. erewrite bind_load by exact E. cbn beta iota.
  now rewrite bind_ret, bind_store.
Qed.

Lemma collect_cat_col_names_cons (preprocessor cat_col_names : nat) encoder_type
  cat_col cat_feat w :
  collect_cat_col_names preprocessor cat_col_names encoder_type (cat_col :: cat_feat) w
  = bind
      (do et <- load_dict encoder_type;
       if truthy et && bool_decide (get et cat_col = Some "onehot") then
         do names <- feature_names_out preprocessor ("cat_" +:+ cat_col) [cat_col];
         list_extend cat_col_names (map VStr names)
       else list_append cat_col_names [VStr cat_col])
      (fun _ => collect_cat_col_names preprocessor cat_col_names encoder_type cat_feat) w.
Proof. reflexivity. Qed.

(** X8.  The label loop in closed form.  Run with a fitted transformer and
    a label list holding [xs], it appends, column by column in the order
    of [cat_feat], the bare column name, except for columns whose
    [encoder_type] entry is exactly ['onehot'], for which it appends the
    names the fitted step reports.  A column that gets a one-hot encoder
    by default (no entry, or [encoder_type=None]) thus contributes its
    bare name only. *)
Theorem collect_cat_col_names_run w (preprocessor cat_col_names : nat) encoder_type
  cat_feat ts st xs et :
  objects w !! preprocessor = Some (OColumnTransformer ts (Some st)) ->
  objects w !! cat_col_names = Some (OList xs) ->
  encoder_dict w encoder_type = Some et ->
  Forall (fun cat_col =>
            truthy et && bool_decide (get et cat_col = Some "onehot") = true ->
            exists names, ct_feature_names_out st ("cat_" +:+ cat_col) [cat_col] = inr names)
         cat_feat ->
  collect_cat_col_names preprocessor cat_col_names encoder_type cat_feat w
  = (mkWorld
       (<[cat_col_names := OList (xs ++ map VStr (flat_map (cat_labels st et) cat_feat))]>
          (objects w))
       (stdout w),
     inr tt).
Proof.
  intros Hp Hc He Hlib. destruct w as [objs out]. cbn [objects stdout] in *.
  revert objs xs Hp Hc He.
  induction Hlib as [|cat_col cat_feat Hhead Htail IH]; intros objs xs Hp Hc He.
  - cbn. rewrite app_nil_r, list_insert_id by exact Hc. reflexivity.
  - assert (Hpc : cat_col_names <> preprocessor) by congruence.
    assert (Hlt : cat_col_names < length objs) by (eapply lookup_lt_Some; eassumption).
    rewrite collect_cat_col_names_cons.
    rewrite bind_bind, (bind_load_dict_world _ _ _ _ He).
    cbn [flat_map]. unfold cat_labels at 1.
    destruct (truthy et && bool_decide (get et cat_col = Some "onehot")) eqn:Hexp.
    + destruct (Hhead eq_refl) as [names Hnames].
      rewrite bind_bind. erewrite bind_feature_names_out by exact Hp.
      rewrite Hnames. erewrite bind_list_extend by exact Hc.
      cbn [objects stdout].
      rewrite IH with (xs := xs ++ map VStr names).
      * rewrite list_insert_insert_eq, map_app, app_assoc. reflexivity.
      * now rewrite list_lookup_insert_ne.
      * now apply list_lookup_insert_eq.
      * eapply encoder_dict_insert_list; eassumption.
    + erewrite bind_list_append_one by exact Hc.
      cbn [objects stdout].
      rewrite IH with (xs := xs ++ [VStr cat_col]).
      * rewrite list_insert_insert_eq, map_app, app_assoc. reflexivity.
      * now rewrite list_lookup_insert_ne.
      * now apply list_lookup_insert_eq.
      * eapply encoder_dict_insert_list; eassumption.
Qed.

End Facts.

(** The executable instance returns one array row per table row. *)
Lemma minmax_keeps_rows : keeps_rows (sk := minmax_sklearn).
Proof.
  split.
  - intros steps df st arr H. cbn in H. unfold minmax_fit_transform in H.
    repeat case_match; simplify_eq.
    split; [reflexivity|]. cbn. unfold scaled_rows. now rewrite length_map, length_seq.
  - intros st df arr H. cbn in H. unfold minmax_transform in H.
    repeat case_match; simplify_eq.
    split; [reflexivity|]. cbn. unfold scaled_rows. now rewrite length_map, length_seq.
Qed.

(** *** The statements above at concrete tables *)

Lemma preprocessing_ignores_encoder_type_witness :
  valid_encoder_type (world_with city_train city_train {[ "city" := "label" ]}) (Some 2)
  /\ preprocessing (sk := minmax_sklearn) 0 1 "minmax" None
       (world_with city_train city_train {[ "city" := "label" ]})
     = preprocessing (sk := minmax_sklearn) 0 1 "minmax" (Some 2)
         (world_with city_train city_train {[ "city" := "label" ]}).
Proof.
  split; [now eexists|].
  apply (preprocessing_ignores_encoder_type (sk := minmax_sklearn)
           (world_with city_train city_train {[ "city" := "label" ]}) 0 1 "minmax"
           None (Some 2) city_train city_train).
  - reflexivity.
  - reflexivity.
  - exact I.
  - now eexists.
Defined.

Lemma preprocessing_returns_only_if_witness :
  preprocessing (sk := minmax_sklearn) 0 1 "minmax" None numeric_world
  = (fst (preprocessing (sk := minmax_sklearn) 0 1 "minmax" None numeric_world), inr (5, 6))
  /\ ("minmax" = "minmax" \/ "minmax" = "robust")
  /\ columns (select_dtypes [object; category] numeric_train) = []
  /\ exists sc st a1 a2,
       ct_fit_transform (Sklearn := minmax_sklearn) (num_step sc numeric_train) numeric_train
       = inr (st, a1)
       /\ ct_transform (Sklearn := minmax_sklearn) st numeric_test = inr a2
       /\ tables_of (fst (preprocessing (sk := minmax_sklearn) 0 1 "minmax" None numeric_world))
            (inr (5, 6))
          = Some (inr (frame_of_array a1 (columns (select_dtypes [number] numeric_train)),
                       frame_of_array a2 (columns (select_dtypes [number] numeric_train)))).
Proof.
  split; [vm_compute; reflexivity|].
  apply (preprocessing_returns_only_if (sk := minmax_sklearn) numeric_world _ 0 1 "minmax"
           None numeric_train numeric_test 5 6).
  - reflexivity.
  - reflexivity.
  - exact I.
  - vm_compute; reflexivity.
Defined.

Lemma preprocessing_returns_if_witness :
  exists st a1 a2,
    ct_fit_transform (Sklearn := minmax_sklearn) (num_step MinMaxScaler numeric_train)
      numeric_train = inr (st, a1)
    /\ ct_transform (Sklearn := minmax_sklearn) st numeric_test = inr a2
    /\ preprocessing (sk := minmax_sklearn) 0 1 "minmax" None numeric_world
       = (mkWorld
            (objects numeric_world
             ++ [OList (num_step MinMaxScaler numeric_train);
                 OColumnTransformer 2 (Some st);
                 OList [];
                 ODataFrame (frame_of_array a1 ["x"; "y"]);
                 ODataFrame (frame_of_array a2 ["x"; "y"])])
            [],
          inr (5, 6)).
Proof.
  eexists _, _, _. split; [reflexivity|]. split; [reflexivity|].
  apply (preprocessing_returns_if (sk := minmax_sklearn) numeric_world 0 1 "minmax" None
           numeric_train numeric_test MinMaxScaler).
  - reflexivity.
  - reflexivity.
  - exact I.
  - reflexivity.
  - reflexivity.
  - reflexivity.
  - reflexivity.
  - reflexivity.
  - reflexivity.
Defined.

(** Fitting on a training table without rows raises [ValueError]. *)
Lemma preprocessing_propagates_library_errors_witness :
  preprocessing (sk := minmax_sklearn) 0 1 "minmax" None
    (mkWorld [ODataFrame (mkDataFrame 0 [mkSeries "x" number []]);
              ODataFrame numeric_test] [])
  = (mkWorld
       ([ODataFrame (mkDataFrame 0 [mkSeries "x" number []]); ODataFrame numeric_test]
        ++ [OList (num_step MinMaxScaler (mkDataFrame 0 [mkSeries "x" number []]));
            OColumnTransformer 2 None])
       [],
     inl ValueError).
Proof.
  apply (preprocessing_propagates_library_errors (sk := minmax_sklearn)
           (mkWorld [ODataFrame (mkDataFrame 0 [mkSeries "x" number []]);
                     ODataFrame numeric_test] [])
           0 1 "minmax" None (mkDataFrame 0 [mkSeries "x" number []]) numeric_test
           MinMaxScaler).
  - reflexivity.
  - reflexivity.
  - exact I.
  - reflexivity.
  - reflexivity.
Defined.

Lemma preprocessing_keeps_row_counts_witness :
  preprocessing (sk := minmax_sklearn) 0 1 "minmax" None numeric_world
  = (fst (preprocessing (sk := minmax_sklearn) 0 1 "minmax" None numeric_world), inr (5, 6))
  /\ exists f1 f2,
       objects (fst (preprocessing (sk := minmax_sklearn) 0 1 "minmax" None numeric_world)) !! 5
       = Some (ODataFrame f1)
       /\ objects (fst (preprocessing (sk := minmax_sklearn) 0 1 "minmax" None numeric_world)) !! 6
          = Some (ODataFrame f2)
       /\ index_len f1 = index_len numeric_train /\ well_formed f1
       /\ index_len f2 = index_len numeric_test /\ well_formed f2.
Proof.
  split; [vm_compute; reflexivity|].
  apply (preprocessing_keeps_row_counts (sk := minmax_sklearn) numeric_world _ 0 1 "minmax"
           None numeric_train numeric_test 5 6).
  - exact minmax_keeps_rows.
  - reflexivity.
  - reflexivity.
  - exact I.
  - vm_compute; reflexivity.
Defined.

(** The boolean and the datetime column of [mixed_train] are dropped. *)
Lemma preprocessing_drops_other_dtypes_witness :
  preprocessing (sk := minmax_sklearn) 0 1 "minmax" None
    (mkWorld [ODataFrame mixed_train; ODataFrame mixed_train] [])
  = (fst (preprocessing (sk := minmax_sklearn) 0 1 "minmax" None
            (mkWorld [ODataFrame mixed_train; ODataFrame mixed_train] [])),
     inr (5, 6))
  /\ exists f1,
       objects (fst (preprocessing (sk := minmax_sklearn) 0 1 "minmax" None
                       (mkWorld [ODataFrame mixed_train; ODataFrame mixed_train] []))) !! 5
       = Some (ODataFrame f1)
       /\ forall label,
            label ∈ columns f1
            <-> exists s, s ∈ series mixed_train /\ name s = label /\ dtype_of s = number.
Proof.
  split; [vm_compute; reflexivity|].
  apply (preprocessing_drops_other_dtypes (sk := minmax_sklearn)
           (mkWorld [ODataFrame mixed_train; ODataFrame mixed_train] []) _ 0 1 "minmax"
           None mixed_train mixed_train 5 6).
  - reflexivity.
  - reflexivity.
  - exact I.
  - vm_compute; reflexivity.
Defined.

(** With [encoder_type=None] the loop adds the two bare column names. *)
Lemma collect_cat_col_names_run_witness :
  collect_cat_col_names (sk := minmax_sklearn) 0 1 None ["city"; "col"]
    (mkWorld [@OColumnTransformer minmax_sklearn 7 (Some []); OList []] [])
  = (mkWorld [@OColumnTransformer minmax_sklearn 7 (Some []);
              OList [VStr "city"; VStr "col"]] [],
     inr tt).
Proof.
  apply (collect_cat_col_names_run (sk := minmax_sklearn)
           (mkWorld [@OColumnTransformer minmax_sklearn 7 (Some []); OList []] []) 0 1 None
           ["city"; "col"] 7 [] [] None).
  - reflexivity.
  - reflexivity.
  - reflexivity.
  - repeat constructor; discriminate.
Defined.

End PreprocessingExtra.

(** ** data/make_dataset.py: the labels of the returned tables *)

Module PreprocessingColumns.
Import PyFacts MakeDataset PreprocessingFacts PreprocessingExtra.

Section Facts.
Context {sk : Sklearn}.
Implicit Types (w : world obj) (train : DataFrame).

(** [select_dtypes] keeps the columns of the dtypes asked for, in order. *)
Lemma select_dtypes_number train :
  columns (select_dtypes [number] train)
  = map name (filter (fun s => dtype_of s = number) (series train)).
Proof.
  unfold columns, select_dtypes. cbn [series]. f_equal.
  apply list_filter_iff. intros s. now rewrite list_elem_of_singleton.
Qed.

Lemma select_dtypes_categorical train :
  columns (select_dtypes [object; category] train)
  = map name (filter (fun s => dtype_of s = object \/ dtype_of s = category) (series train)).
Proof.
  unfold columns, select_dtypes. cbn [series]. f_equal.
  apply list_filter_iff. intros s.
  rewrite elem_of_cons, list_elem_of_singleton. reflexivity.
Qed.

Lemma omap_VStr (labels : list string) :
  omap (fun v => match v with VStr s => Some s | _ => None end) (map VStr labels) = labels.
Proof. induction labels as [|l labels IH]; cbn; [reflexivity|now rewrite IH]. Qed.

Lemma bind_alloc_world {B} (o : obj) (f : nat -> run obj B) w :
  bind (alloc o) f w = f (length (objects w)) (mkWorld (objects w ++ [o]) (stdout w)).
Proof. reflexivity. Qed.

(** The tail of [preprocessing] is [build_outputs]. *)
Lemma preprocessing_tail train_df test_df scaler_type encoder_type :
  preprocessing train_df test_df scaler_type encoder_type
  = (do train <- load_frame train_df;
     let num_feat := columns (select_dtypes [number] train) in
     let cat_feat := columns (select_dtypes [object; category] train) in
     do scaler <- select_scaler scaler_type;
     do transformers <-
       alloc (OList [VTuple [VStr "num"; VEstimator scaler; VIndex num_feat]]);
     for_each cat_feat (fun cat_col =>
       do et <- load_dict encoder_type;
       list_append transformers
         [VStr ("cat_" +:+ cat_col); VEstimator (select_encoder et cat_col);
          VIndex [cat_col]]);;
     do preprocessor <- alloc (OColumnTransformer transformers None);
     do train_preprocessed <- fit_transform preprocessor train_df;
     do test_preprocessed <- transform preprocessor test_df;
     build_outputs preprocessor encoder_type num_feat cat_feat
       train_preprocessed test_preprocessed).
Proof. reflexivity. Qed.

(** A run of the label loop that returns has appended the labels of every
    column, in order. *)
Lemma collect_cat_col_names_returns (objs : list obj) out (preprocessor cat_col_names : nat)
  encoder_type cat_feat ts st xs et w' :
  objs !! preprocessor = Some (OColumnTransformer ts (Some st)) ->
  objs !! cat_col_names = Some (OList xs) ->
  encoder_dict (mkWorld objs out) encoder_type = Some et ->
  collect_cat_col_names preprocessor cat_col_names encoder_type cat_feat (mkWorld objs out)
  = (w', inr tt) ->
  w' = mkWorld
         (<[cat_col_names := OList (xs ++ map VStr (flat_map (cat_labels st et) cat_feat))]>
            objs)
         out.
Proof.
  revert objs xs.
  induction cat_feat as [|cat_col cat_feat IH]; intros objs xs Hp Hc He Hrun.
  - cbn in Hrun. injection Hrun as <-. cbn.
    now rewrite app_nil_r, list_insert_id by exact Hc.
  - assert (Hpc : cat_col_names <> preprocessor) by congruence.
    assert (Hlt : cat_col_names < length objs) by (eapply lookup_lt_Some; eassumption).
    rewrite collect_cat_col_names_cons in Hrun.
    rewrite bind_bind, (bind_load_dict_world _ _ _ _ He) in Hrun.
    cbn [flat_map]. unfold cat_labels at 1.
    destruct (truthy et && bool_decide (get et cat_col = Some "onehot")) eqn:Hexp.
    + rewrite bind_bind in Hrun.
      erewrite bind_feature_names_out in Hrun by exact Hp.
      destruct (ct_feature_names_out st ("cat_" +:+ cat_col) [cat_col]) as [e|names];
        [discriminate|].
      erewrite bind_list_extend in Hrun by exact Hc.
      cbn [objects stdout] in Hrun.
      apply IH with (xs := xs ++ map VStr names) in Hrun.
      * rewrite Hrun, list_insert_insert_eq, map_app, app_assoc. reflexivity.
      * now rewrite list_lookup_insert_ne.
      * now apply list_lookup_insert_eq.
      * eapply encoder_dict_insert_list; eassumption.
    + erewrite bind_list_append_one in Hrun by exact Hc.
      cbn [objects stdout] in Hrun.
      apply IH with (xs := xs ++ [VStr cat_col]) in Hrun.
      * rewrite Hrun, list_insert_insert_eq, map_app, app_assoc. reflexivity.
      * now rewrite list_lookup_insert_ne.
      * now apply list_lookup_insert_eq.
      * eapply encoder_dict_insert_list; eassumption.
Qed.

(** A run of lines 106-123 that returns has built both tables with the
    labels [num_feat] followed by the labels of every column of
    [cat_feat], in order. *)
Lemma build_outputs_returns w w' (preprocessor : nat) encoder_type num_feat cat_feat
  a1 a2 ts st et (out1 out2 : nat) :
  objects w !! preprocessor = Some (OColumnTransformer ts (Some st)) ->
  encoder_dict w encoder_type = Some et ->
  build_outputs preprocessor encoder_type num_feat cat_feat a1 a2 w = (w', inr (out1, out2)) ->
  objects w' !! out1
  = Some (ODataFrame (frame_of_array a1 (num_feat ++ flat_map (cat_labels st et) cat_feat)))
  /\ objects w' !! out2
     = Some (ODataFrame (frame_of_array a2 (num_feat ++ flat_map (cat_labels st et) cat_feat))).
Proof.
  intros Hp He Hrun. destruct w as [objs out]. cbn [objects] in Hp.
  unfold build_outputs in Hrun.
  rewrite bind_alloc_world in Hrun. cbn [objects stdout] in Hrun.
  unfold bind at 1 in Hrun.
  destruct (collect_cat_col_names preprocessor (length objs) encoder_type cat_feat
              (mkWorld (objs ++ [OList []]) out)) as [w1 [e|[]]] eqn:Hloop;
    [discriminate|].
  apply (collect_cat_col_names_returns _ _ _ _ _ _ ts st [] et) in Hloop.
  2:{ now apply lookup_app_l_Some. }
  2:{ now rewrite list_lookup_middle. }
  2:{ unfold encoder_dict in *. destruct encoder_type as [l|]; [|exact He].
      cbn [objects] in *. destruct (objs !! l) as [o|] eqn:El; [|discriminate].
      now rewrite (lookup_app_l_Some _ _ _ _ El). }
  subst w1. cbn [app] in Hrun.
  unfold load_list in Hrun. rewrite bind_bind in Hrun.
  erewrite bind_load in Hrun.
  2:{ cbn [objects]. apply list_lookup_insert_eq. rewrite length_app. cbn. lia. }
  cbn beta iota in Hrun. rewrite bind_ret, omap_VStr in Hrun.
  replace (length objs) with (length objs + 0) in Hrun at 1 by lia.
  rewrite insert_app_r in Hrun. cbn [insert list_insert] in Hrun.
  rewrite bind_pd_DataFrame in Hrun.
  case_bool_decide; [|discriminate].
  rewrite bind_pd_DataFrame in Hrun.
  case_bool_decide; [|discriminate].
  unfold ret in Hrun. injection Hrun as <- <- <-.
  cbn [objects length app].
  rewrite !lookup_app_r by lia.
  replace (length objs + 1 - length objs) with 1 by lia.
  replace (length objs + 2 - length objs) with 2 by lia.
  split; reflexivity.
Qed.

(** C5.  The two tables of a successful call carry the same column labels
    in the same order: the labels of the number-dtype columns of the
    training table, in their original order, and nothing else, because a
    call succeeds only on a training table without object or category
    columns.  The order rule itself is that of lines 106-123, which build
    both tables: whenever they run to the end, on any training table and
    with a fitted transformer, both tables carry the labels of the
    number-dtype columns in original order, followed, for each object or
    category column in original order, by the labels of that column (the
    names the fitted step reports if its [encoder_type] entry is
    ['onehot'], the column's own name otherwise). *)
Theorem preprocessing_output_columns :
  (forall w w' (train_df test_df : nat) scaler_type encoder_type train test
          (out1 out2 : nat),
      objects w !! train_df = Some (ODataFrame train) ->
      objects w !! test_df = Some (ODataFrame test) ->
      valid_encoder_type w encoder_type ->
      preprocessing train_df test_df scaler_type encoder_type w = (w', inr (out1, out2)) ->
      exists f1 f2,
        objects w' !! out1 = Some (ODataFrame f1)
        /\ objects w' !! out2 = Some (ODataFrame f2)
        /\ columns f1 = columns f2
        /\ filter (fun s => dtype_of s = object \/ dtype_of s = category) (series train) = []
        /\ columns f1 = map name (filter (fun s => dtype_of s = number) (series train)))
  /\ (forall w w' (preprocessor : nat) encoder_type train a1 a2 ts st et (out1 out2 : nat),
         objects w !! preprocessor = Some (OColumnTransformer ts (Some st)) ->
         encoder_dict w encoder_type = Some et ->
         build_outputs preprocessor encoder_type
           (columns (select_dtypes [number] train))
           (columns (select_dtypes [object; category] train)) a1 a2 w
         = (w', inr (out1, out2)) ->
         exists f1 f2,
           objects w' !! out1 = Some (ODataFrame f1)
           /\ objects w' !! out2 = Some (ODataFrame f2)
           /\ columns f1 = columns f2
           /\ columns f1
              = map name (filter (fun s => dtype_of s = number) (series train))
                ++ flat_map (cat_labels st et)
                     (map name
                        (filter (fun s => dtype_of s = object \/ dtype_of s = category)
                           (series train)))).
Proof.
  split.
  - intros w w' train_df test_df scaler_type encoder_type train test out1 out2
      Htr Hte Het Hrun.
    destruct (run_returns _ _ _ _ _ _ _ _ _ _ Htr Hte Het Hrun) as (news & Htrace & ->).
    destruct (trace_returns _ _ _ _ _ _ _ Htrace)
      as (sc & st & a1 & a2 & _ & Hcat & _ & _ & _ & _ & -> & -> & ->).
    eexists _, _. cbn [objects].
    rewrite !lookup_app_r by lia.
    replace (length (objects w) + 3 - length (objects w)) with 3 by lia.
    replace (length (objects w) + 4 - length (objects w)) with 4 by lia.
    split; [reflexivity|]. split; [reflexivity|].
    split; [now rewrite !columns_frame_of_array|].
    split.
    + rewrite select_dtypes_categorical in Hcat. now apply fmap_nil_inv in Hcat.
    + now rewrite columns_frame_of_array, select_dtypes_number.
  - intros w w' preprocessor encoder_type train a1 a2 ts st et out1 out2 Hp He Hrun.
    destruct (build_outputs_returns _ _ _ _ _ _ _ _ _ _ _ _ _ Hp He Hrun) as [H1 H2].
    eexists _, _. split; [exact H1|]. split; [exact H2|].
    rewrite !columns_frame_of_array.
    split; [reflexivity|].
    now rewrite select_dtypes_number, select_dtypes_categorical.
Qed.

End Facts.

(** *** The statement above at concrete tables

    A successful call on the two numeric tables, and lines 106-123 run on
    the table [{"x": [1, 2, 3], "city": ["NY", "LA", "NY"]}] with a fitted
    transformer and two arrays of two columns: the label [city] follows
    the label [x] in both tables. *)
Lemma preprocessing_output_columns_witness :
  (preprocessing (sk := minmax_sklearn) 0 1 "minmax" None numeric_world
   = (fst (preprocessing (sk := minmax_sklearn) 0 1 "minmax" None numeric_world), inr (5, 6))
   /\ exists f1 f2,
        objects (fst (preprocessing (sk := minmax_sklearn) 0 1 "minmax" None numeric_world))
          !! 5 = Some (ODataFrame f1)
        /\ objects (fst (preprocessing (sk := minmax_sklearn) 0 1 "minmax" None numeric_world))
             !! 6 = Some (ODataFrame f2)
        /\ columns f1 = columns f2
        /\ filter (fun s => dtype_of s = object \/ dtype_of s = category)
             (series numeric_train) = []
        /\ columns f1 = ["x"; "y"])
  /\ (build_outputs (sk := minmax_sklearn) 0 None ["x"] ["city"]
        (mkArray 3 2 [[0; 1]; [1 # 2; 0]; [1; 1]]%Q) (mkArray 1 2 [[1 # 2; 1]]%Q)
        (mkWorld [@OColumnTransformer minmax_sklearn 7 (Some [])] [])
      = (fst (build_outputs (sk := minmax_sklearn) 0 None ["x"] ["city"]
                (mkArray 3 2 [[0; 1]; [1 # 2; 0]; [1; 1]]%Q) (mkArray 1 2 [[1 # 2; 1]]%Q)
                (mkWorld [@OColumnTransformer minmax_sklearn 7 (Some [])] [])),
         inr (2, 3))
      /\ exists f1 f2,
           objects (fst (build_outputs (sk := minmax_sklearn) 0 None ["x"] ["city"]
                           (mkArray 3 2 [[0; 1]; [1 # 2; 0]; [1; 1]]%Q)
                           (mkArray 1 2 [[1 # 2; 1]]%Q)
                           (mkWorld [@OColumnTransformer minmax_sklearn 7 (Some [])] [])))
             !! 2 = Some (ODataFrame f1)
           /\ objects (fst (build_outputs (sk := minmax_sklearn) 0 None ["x"] ["city"]
                              (mkArray 3 2 [[0; 1]; [1 # 2; 0]; [1; 1]]%Q)
                              (mkArray 1 2 [[1 # 2; 1]]%Q)
                              (mkWorld [@OColumnTransformer minmax_sklearn 7 (Some [])] [])))
                !! 3 = Some (ODataFrame f2)
           /\ columns f1 = columns f2
           /\ columns f1 = ["x"; "city"]).
Proof.
  destruct (preprocessing_output_columns (sk := minmax_sklearn)) as [Hcall Htail].
  split.
  - split; [vm_compute; reflexivity|].
    apply (Hcall numeric_world _ 0 1 "minmax" None numeric_train numeric_test 5 6).
    + reflexivity.
    + reflexivity.
    + exact I.
    + vm_compute; reflexivity.
  - split; [vm_compute; reflexivity|].
    apply (Htail (mkWorld [@OColumnTransformer minmax_sklearn 7 (Some [])] []) _ 0 None
             city_train (mkArray 3 2 [[0; 1]; [1 # 2; 0]; [1; 1]]%Q)
             (mkArray 1 2 [[1 # 2; 1]]%Q) 7 [] None 2 3).
    + reflexivity.
    + reflexivity.
    + vm_compute; reflexivity.
Defined.

End PreprocessingColumns.

(** ** utils/hypothesis_testing.py: further properties *)

Module HypothesisTestingExtra.
Import PyFacts HypothesisTesting HypothesisTestingFacts.

Section Facts.
Context {pg : Pingouin}.
Implicit Types (w : world obj) (m : module).

(** A call of [chi2_independence_test] whose library call returns, in
    full: the list written and the four lines printed. *)
Lemma chi2_call m data main_cat sec_cat sig_col no_sig_col alpha w stats xs :
  let s := default (sig_col_default (chi2_defaults m)) sig_col in
  let n := default (no_sig_col_default (chi2_defaults m)) no_sig_col in
  let sig := chi2_significant stats (default alpha_default alpha) in
  chi2_independence data main_cat sec_cat = inr stats ->
  objects w !! (if sig then s else n) = Some (OList xs) ->
  chi2_independence_test m data main_cat sec_cat sig_col no_sig_col alpha w
  = (mkWorld (<[(if sig then s else n) := OList (xs ++ [sec_cat])]> (objects w))
       (stdout w ++ [repeat_str "-" 80; show_chi2 stats;
                     chi2_message main_cat sec_cat sig; repeat_str "-" 80]),
     inr (s, n)).
Proof.
  intros s n sig Hlib Hxs. destruct w as [objs out]. cbn [objects stdout] in *.
  unfold chi2_independence_test. fold s n.
  rewrite Hlib, bind_lift, !bind_print.
  fold (chi2_significant stats (default alpha_default alpha)).
  subst sig. unfold chi2_message.
  destruct (chi2_significant stats (default alpha_default alpha));
    rewrite bind_bind, bind_print; erewrite bind_list_append by exact Hxs;
    rewrite bind_print; cbn [objects stdout]; rewrite <- !app_assoc; reflexivity.
Qed.

(** The same for [kruskal_wallis_test]. *)
Lemma kruskal_call m data cat_feat num_feat sig_col no_sig_col alpha w results xs :
  let s := default (sig_col_default (kruskal_defaults m)) sig_col in
  let n := default (no_sig_col_default (kruskal_defaults m)) no_sig_col in
  let sig := float_lt (kruskal_p_unc results) (default alpha_default alpha) in
  kruskal data num_feat cat_feat = inr results ->
  objects w !! (if sig then s else n) = Some (OList xs) ->
  kruskal_wallis_test m data cat_feat num_feat sig_col no_sig_col alpha w
  = (mkWorld (<[(if sig then s else n) := OList (xs ++ [num_feat])]> (objects w))
       (stdout w ++ [repeat_str "-" 80; show_kruskal results;
                     kruskal_message cat_feat num_feat sig; repeat_str "-" 80]),
     inr (s, n)).
Proof.
  intros s n sig Hlib Hxs. destruct w as [objs out]. cbn [objects stdout] in *.
  unfold kruskal_wallis_test. fold s n.
  rewrite Hlib, bind_lift, !bind_print.
  subst sig. unfold kruskal_message.
  destruct (float_lt (kruskal_p_unc results) (default alpha_default alpha));
    rewrite bind_bind, bind_print; erewrite bind_list_append by exact Hxs;
    rewrite bind_print; cbn [objects stdout]; rewrite <- !app_assoc; reflexivity.
Qed.

(** X9.  When the library call raises, either wrapper raises the same
    exception and has done nothing: no line printed, no list changed. *)
Theorem tests_propagate_library_errors :
  (forall m data main_cat sec_cat sig_col no_sig_col alpha w e,
      chi2_independence data main_cat sec_cat = inl e ->
      chi2_independence_test m data main_cat sec_cat sig_col no_sig_col alpha w
      = (w, inl e))
  /\ (forall m data cat_feat num_feat sig_col no_sig_col alpha w e,
         kruskal data num_feat cat_feat = inl e ->
         kruskal_wallis_test m data cat_feat num_feat sig_col no_sig_col alpha w
         = (w, inl e)).
Proof.
  split.
  - intros m data main_cat sec_cat sig_col no_sig_col alpha w e Hlib.
    unfold chi2_independence_test. now rewrite Hlib, bind_lift.
  - intros m data cat_feat num_feat sig_col no_sig_col alpha w e Hlib.
    unfold kruskal_wallis_test. now rewrite Hlib, bind_lift.
Qed.

(** X10.  A call whose library call returns prints exactly four lines, in
    this order: a rule of 80 dashes, the library's result, one message
    (the rejecting one exactly when the test is significant at [alpha]) and
    the rule again. *)
Theorem tests_print_four_lines :
  (forall m data main_cat sec_cat sig_col no_sig_col alpha w stats,
      let s := default (sig_col_default (chi2_defaults m)) sig_col in
      let n := default (no_sig_col_default (chi2_defaults m)) no_sig_col in
      let sig := chi2_significant stats (default alpha_default alpha) in
      chi2_independence data main_cat sec_cat = inr stats ->
      is_Some (objects w !! (if sig then s else n)) ->
      stdout (fst (chi2_independence_test m data main_cat sec_cat sig_col no_sig_col alpha w))
      = stdout w ++ [repeat_str "-" 80; show_chi2 stats;
                     chi2_message main_cat sec_cat sig; repeat_str "-" 80])
  /\ (forall m data cat_feat num_feat sig_col no_sig_col alpha w results,
         let s := default (sig_col_default (kruskal_defaults m)) sig_col in
         let n := default (no_sig_col_default (kruskal_defaults m)) no_sig_col in
         let sig := float_lt (kruskal_p_unc results) (default alpha_default alpha) in
         kruskal data num_feat cat_feat = inr results ->
         is_Some (objects w !! (if sig then s else n)) ->
         stdout (fst (kruskal_wallis_test m data cat_feat num_feat sig_col no_sig_col alpha w))
         = stdout w ++ [repeat_str "-" 80; show_kruskal results;
                        kruskal_message cat_feat num_feat sig; repeat_str "-" 80])
  /\ String.length (repeat_str "-" 80) = 80.
Proof.
  split; [|split].
  - intros m data main_cat sec_cat sig_col no_sig_col alpha w stats s n sig Hlib [[xs] Hxs].
    now rewrite (chi2_call m data main_cat sec_cat sig_col no_sig_col alpha w stats xs Hlib Hxs).
  - intros m data cat_feat num_feat sig_col no_sig_col alpha w results s n sig Hlib [[xs] Hxs].
    now rewrite (kruskal_call m data cat_feat num_feat sig_col no_sig_col alpha w results xs
                   Hlib Hxs).
  - reflexivity.
Qed.

(** A loop of calls, each appending its name to the list at [s] or to the
    list at [n], splits the names over the two lists and keeps their
    order. *)
Lemma loop_partitions (call : string -> run obj (nat * nat)) (rej : string -> bool)
  (ok : string -> Prop) (lines : string -> list string) (s n : nat) :
  s <> n ->
  (forall x w zs,
      ok x ->
      objects w !! (if rej x then s else n) = Some (OList zs) ->
      call x w
      = (mkWorld (<[(if rej x then s else n) := OList (zs ++ [x])]> (objects w))
           (stdout w ++ lines x),
         inr (s, n))) ->
  (forall x, length (lines x) = 4) ->
  forall names w xs ys,
    Forall ok names ->
    objects w !! s = Some (OList xs) ->
    objects w !! n = Some (OList ys) ->
    exists w',
      for_each names (fun x => call x;; ret tt) w = (w', inr tt)
      /\ objects w' !! s = Some (OList (xs ++ filter (fun x => rej x = true) names))
      /\ objects w' !! n = Some (OList (ys ++ filter (fun x => rej x = false) names))
      /\ (forall l, l <> s -> l <> n -> objects w' !! l = objects w !! l)
      /\ length (stdout w') = length (stdout w) + 4 * length names.
Proof.
  intros Hsn Hcall Hlines names.
  induction names as [|x names IH]; intros w xs ys Hok Hs Hn.
  - exists w. cbn. rewrite !app_nil_r. repeat split; auto; lia.
  - inversion Hok as [|? ? Hx Hrest]; subst.
    assert (Hls : s < length (objects w)) by (eapply lookup_lt_Some; eassumption).
    assert (Hln : n < length (objects w)) by (eapply lookup_lt_Some; eassumption).
    cbn [for_each]. rewrite bind_bind.
    destruct (rej x) eqn:Hrej.
    + pose proof (Hcall x w xs Hx) as Hrun. rewrite Hrej in Hrun.
      specialize (Hrun Hs).
      unfold bind at 1. rewrite Hrun. rewrite bind_ret.
      destruct (IH (mkWorld (<[s := OList (xs ++ [x])]> (objects w)) (stdout w ++ lines x))
                  (xs ++ [x]) ys Hrest) as (w' & Hloop & Hs' & Hn' & Hother & Hout).
      { cbn [objects]. now apply list_lookup_insert_eq. }
      { cbn [objects]. rewrite list_lookup_insert_ne by exact Hsn. exact Hn. }
      exists w'. split; [exact Hloop|].
      rewrite filter_cons_True by exact Hrej.
      rewrite (filter_cons_False (fun x => rej x = false)) by congruence.
      split; [now rewrite Hs', <- app_assoc|]. split; [exact Hn'|].
      split.
      * intros l Hl1 Hl2. rewrite (Hother l Hl1 Hl2). cbn [objects].
        now rewrite list_lookup_insert_ne by congruence.
      * rewrite Hout. cbn [stdout length]. rewrite length_app, Hlines. lia.
    + pose proof (Hcall x w ys Hx) as Hrun. rewrite Hrej in Hrun.
      specialize (Hrun Hn).
      unfold bind at 1. rewrite Hrun. rewrite bind_ret.
      destruct (IH (mkWorld (<[n := OList (ys ++ [x])]> (objects w)) (stdout w ++ lines x))
                  xs (ys ++ [x]) Hrest) as (w' & Hloop & Hs' & Hn' & Hother & Hout).
      { cbn [objects]. rewrite list_lookup_insert_ne by congruence. exact Hs. }
      { cbn [objects]. now apply list_lookup_insert_eq. }
      exists w'. split; [exact Hloop|].
      rewrite filter_cons_False by congruence.
      rewrite (filter_cons_True (fun x => rej x = false)) by exact Hrej.
      split; [exact Hs'|]. split; [now rewrite Hn', <- app_assoc|].
      split.
      * intros l Hl1 Hl2. rewrite (Hother l Hl1 Hl2). cbn [objects].
        now rewrite list_lookup_insert_ne by congruence.
      * rewrite Hout. cbn [stdout length]. rewrite length_app, Hlines. lia.
Qed.

(** X11.  Testing a list of columns in a loop with the same two distinct
    lists (passed or default) sorts the column names: afterwards the
    first list holds its old content followed by the names whose test
    rejected, the second its old content followed by the other names, both
    in loop order; no other object changed and four lines were printed per
    column. *)
Theorem chi2_loop_partitions m data main_cat sig_col no_sig_col alpha sec_cats w xs ys :
  let s := default (sig_col_default (chi2_defaults m)) sig_col in
  let n := default (no_sig_col_default (chi2_defaults m)) no_sig_col in
  s <> n ->
  objects w !! s = Some (OList xs) ->
  objects w !! n = Some (OList ys) ->
  Forall (fun sec_cat => exists stats, chi2_independence data main_cat sec_cat = inr stats)
         sec_cats ->
  exists w',
    for_each sec_cats
      (fun sec_cat =>
         chi2_independence_test m data main_cat sec_cat sig_col no_sig_col alpha;; ret tt) w
    = (w', inr tt)
    /\ objects w' !! s
       = Some (OList (xs ++ filter (fun c => chi2_rejects data main_cat alpha c = true) sec_cats))
    /\ objects w' !! n
       = Some (OList (ys ++ filter (fun c => chi2_rejects data main_cat alpha c = false) sec_cats))
    /\ (forall l, l <> s -> l <> n -> objects w' !! l = objects w !! l)
    /\ length (stdout w') = length (stdout w) + 4 * length sec_cats.
Proof.
  intros s n Hsn Hs Hn Hok.
  eapply (loop_partitions
            (fun c => chi2_independence_test m data main_cat c sig_col no_sig_col alpha)
            (chi2_rejects data main_cat alpha)
            (fun c => exists stats, chi2_independence data main_cat c = inr stats)
            (fun c =>
               [repeat_str "-" 80;
                match chi2_independence data main_cat c with
                | inr stats => show_chi2 stats
                | inl _ => ""
                end;
                chi2_message main_cat c (chi2_rejects data main_cat alpha c);
                repeat_str "-" 80])
            s n Hsn); try eassumption; [|reflexivity].
  intros c w0 zs [stats Hlib] Hzs.
  unfold chi2_rejects in *. rewrite Hlib in *.
  exact (chi2_call m data main_cat c sig_col no_sig_col alpha w0 stats zs Hlib Hzs).
Qed.

(** X12.  The same for [kruskal_wallis_test] over a list of numeric
    columns: the names of the numeric columns (not of the categorical
    one) are sorted over the two lists, in loop order. *)
Theorem kruskal_loop_partitions m data cat_feat sig_col no_sig_col alpha num_feats w xs ys :
  let s := default (sig_col_default (kruskal_defaults m)) sig_col in
  let n := default (no_sig_col_default (kruskal_defaults m)) no_sig_col in
  s <> n ->
  objects w !! s = Some (OList xs) ->
  objects w !! n = Some (OList ys) ->
  Forall (fun num_feat => exists results, kruskal data num_feat cat_feat = inr results)
         num_feats ->
  exists w',
    for_each num_feats
      (fun num_feat =>
         kruskal_wallis_test m data cat_feat num_feat sig_col no_sig_col alpha;; ret tt) w
    = (w', inr tt)
    /\ objects w' !! s
       = Some (OList (xs ++ filter (fun c => kruskal_rejects data cat_feat alpha c = true)
                              num_feats))
    /\ objects w' !! n
       = Some (OList (ys ++ filter (fun c => kruskal_rejects data cat_feat alpha c = false)
                              num_feats))
    /\ (forall l, l <> s -> l <> n -> objects w' !! l = objects w !! l)
    /\ length (stdout w') = length (stdout w) + 4 * length num_feats.
Proof.
  intros s n Hsn Hs Hn Hok.
  eapply (loop_partitions
            (fun c => kruskal_wallis_test m data cat_feat c sig_col no_sig_col alpha)
            (kruskal_rejects data cat_feat alpha)
            (fun c => exists results, kruskal data c cat_feat = inr results)
            (fun c =>
               [repeat_str "-" 80;
                match kruskal data c cat_feat with
                | inr results => show_kruskal results
                | inl _ => ""
                end;
                kruskal_message cat_feat c (kruskal_rejects data cat_feat alpha c);
                repeat_str "-" 80])
            s n Hsn); try eassumption; [|reflexivity].
  intros c w0 zs [results Hlib] Hzs.
  unfold kruskal_rejects in *. rewrite Hlib in *.
  exact (kruskal_call m data cat_feat c sig_col no_sig_col alpha w0 results zs Hlib Hzs).
Qed.

(** X13.  If the caller passes one and the same list as [sig_col] and as
    [no_sig_col], the tested name is appended to it whatever the outcome
    of the test, and the pair returned holds that list twice. *)
Theorem tests_with_one_list_for_both :
  (forall m data main_cat sec_cat (l : nat) alpha w stats xs,
      chi2_independence data main_cat sec_cat = inr stats ->
      objects w !! l = Some (OList xs) ->
      exists out,
        chi2_independence_test m data main_cat sec_cat (Some l) (Some l) alpha w
        = (mkWorld (<[l := OList (xs ++ [sec_cat])]> (objects w)) out, inr (l, l)))
  /\ (forall m data cat_feat num_feat (l : nat) alpha w results xs,
         kruskal data num_feat cat_feat = inr results ->
         objects w !! l = Some (OList xs) ->
         exists out,
           kruskal_wallis_test m data cat_feat num_feat (Some l) (Some l) alpha w
           = (mkWorld (<[l := OList (xs ++ [num_feat])]> (objects w)) out, inr (l, l))).
Proof.
  split.
  - intros m data main_cat sec_cat l alpha w stats xs Hlib Hxs.
    pose proof (chi2_call m data main_cat sec_cat (Some l) (Some l) alpha w stats xs Hlib)
      as Hrun.
    cbn [default] in Hrun.
    destruct (chi2_significant stats (default alpha_default alpha));
      rewrite (Hrun Hxs); eexists; reflexivity.
  - intros m data cat_feat num_feat l alpha w results xs Hlib Hxs.
    pose proof (kruskal_call m data cat_feat num_feat (Some l) (Some l) alpha w results xs
                  Hlib) as Hrun.
    cbn [default] in Hrun.
    destruct (float_lt (kruskal_p_unc results) (default alpha_default alpha));
      rewrite (Hrun Hxs); eexists; reflexivity.
Qed.

End Facts.

(** Executing the module allocates the four default lists, in the order
    of the two [def] statements. *)
Lemma import_module_run (w0 : world obj) :
  import_module w0
  = (mkWorld (objects w0 ++ [OList []; OList []; OList []; OList []]) (stdout w0),
     inr (mkModule
            (mkDefaults (length (objects w0)) (length (objects w0) + 1))
            (mkDefaults (length (objects w0) + 2) (length (objects w0) + 3)))).
Proof.
  destruct w0 as [objs out]. unfold import_module, def_defaults.
  rewrite <- (app_nil_r objs) at 1.
  rewrite !bind_bind, bind_alloc, bind_bind, bind_alloc, bind_ret.
  rewrite !bind_bind, bind_alloc, bind_bind, bind_alloc, bind_ret.
  cbn [objects stdout app length]. now rewrite Nat.add_0_r.
Qed.

Section Defaults.
Context {pg : Pingouin}.

(** X14.  The two wrappers do not share their default lists: in the world
    left by executing the module, a call of one wrapper that omits both
    lists returns its own two default lists and leaves the default lists
    of the other wrapper empty. *)
Theorem defaults_not_shared_between_tests (w0 w : world obj) (m : module) :
  import_module w0 = (w, inr m) ->
  (forall data main_cat sec_cat alpha stats,
      chi2_independence data main_cat sec_cat = inr stats ->
      exists w',
        chi2_independence_test m data main_cat sec_cat None None alpha w
        = (w', inr (sig_col_default (chi2_defaults m), no_sig_col_default (chi2_defaults m)))
        /\ objects w' !! sig_col_default (kruskal_defaults m) = Some (OList [])
        /\ objects w' !! no_sig_col_default (kruskal_defaults m) = Some (OList []))
  /\ (forall data cat_feat num_feat alpha results,
         kruskal data num_feat cat_feat = inr results ->
         exists w',
           kruskal_wallis_test m data cat_feat num_feat None None alpha w
           = (w', inr (sig_col_default (kruskal_defaults m),
                       no_sig_col_default (kruskal_defaults m)))
           /\ objects w' !! sig_col_default (chi2_defaults m) = Some (OList [])
           /\ objects w' !! no_sig_col_default (chi2_defaults m) = Some (OList [])).
Proof.
  rewrite import_module_run. intros [= <- <-].
  cbn [chi2_defaults kruskal_defaults sig_col_default no_sig_col_default].
  set (k := length (objects w0)).
  assert (L0 : (objects w0 ++ [OList []; OList []; OList []; OList []]) !! k
               = Some (OList [])).
  { rewrite lookup_app_r by (subst k; lia).
    now replace (k - length (objects w0)) with 0 by (subst k; lia). }
  assert (L1 : (objects w0 ++ [OList []; OList []; OList []; OList []]) !! (k + 1)
               = Some (OList [])).
  { rewrite lookup_app_r by (subst k; lia).
    now replace (k + 1 - length (objects w0)) with 1 by (subst k; lia). }
  assert (L2 : (objects w0 ++ [OList []; OList []; OList []; OList []]) !! (k + 2)
               = Some (OList [])).
  { rewrite lookup_app_r by (subst k; lia).
    now replace (k + 2 - length (objects w0)) with 2 by (subst k; lia). }
  assert (L3 : (objects w0 ++ [OList []; OList []; OList []; OList []]) !! (k + 3)
               = Some (OList [])).
  { rewrite lookup_app_r by (subst k; lia).
    now replace (k + 3 - length (objects w0)) with 3 by (subst k; lia). }
  split.
  - intros data main_cat sec_cat alpha stats Hlib.
    pose proof (chi2_call
                  (mkModule (mkDefaults k (k + 1)) (mkDefaults (k + 2) (k + 3)))
                  data main_cat sec_cat None None alpha
                  (mkWorld (objects w0 ++ [OList []; OList []; OList []; OList []]) (stdout w0))
                  stats [] Hlib) as Hrun.
    cbn [default chi2_defaults sig_col_default no_sig_col_default objects] in Hrun.
    destruct (chi2_significant stats (default alpha_default alpha)).
    + rewrite (Hrun L0). eexists. split; [reflexivity|]. cbn [objects].
      rewrite !list_lookup_insert_ne by lia. auto.
    + rewrite (Hrun L1). eexists. split; [reflexivity|]. cbn [objects].
      rewrite !list_lookup_insert_ne by lia. auto.
  - intros data cat_feat num_feat alpha results Hlib.
    pose proof (kruskal_call
                  (mkModule (mkDefaults k (k + 1)) (mkDefaults (k + 2) (k + 3)))
                  data cat_feat num_feat None None alpha
                  (mkWorld (objects w0 ++ [OList []; OList []; OList []; OList []]) (stdout w0))
                  results [] Hlib) as Hrun.
    cbn [default kruskal_defaults sig_col_default no_sig_col_default objects] in Hrun.
    destruct (float_lt (kruskal_p_unc results) (default alpha_default alpha)).
    + rewrite (Hrun L2). eexists. split; [reflexivity|]. cbn [objects].
      rewrite !list_lookup_insert_ne by lia. auto.
    + rewrite (Hrun L3). eexists. split; [reflexivity|]. cbn [objects].
      rewrite !list_lookup_insert_ne by lia. auto.
Qed.

End Defaults.

(** *** The statements above at concrete calls *)

Lemma tests_propagate_library_errors_witness :
  chi2_independence_test (pg := checked_pingouin) imported_module [] "group" "smoker"
    None None None imported_world
  = (imported_world, inl ValueError)
  /\ kruskal_wallis_test (pg := checked_pingouin) imported_module [] "group" "age"
       None None None imported_world
     = (imported_world, inl ValueError).
Proof.
  destruct (tests_propagate_library_errors (pg := checked_pingouin)) as [Hchi Hkw].
  split.
  - apply (Hchi imported_module [] "group" "smoker" None None None imported_world ValueError).
    reflexivity.
  - apply (Hkw imported_module [] "group" "age" None None None imported_world ValueError).
    reflexivity.
Defined.

Lemma tests_print_four_lines_witness :
  stdout (fst (chi2_independence_test (pg := direct_pingouin) imported_module
                 [1 # 100; 1 # 2]%Q "group" "smoker" None None None imported_world))
  = [repeat_str "-" 80; "stats";
     "Reject null hypothesis: There is a statistically significant difference between smoker and group";
     repeat_str "-" 80]
  /\ stdout (fst (kruskal_wallis_test (pg := direct_pingouin) imported_module
                    [1 # 2]%Q "group" "age" None None None imported_world))
     = [repeat_str "-" 80; "results";
        "Failed to reject null hypothesis: There is no statistically significant difference in age between group";
        repeat_str "-" 80].
Proof.
  destruct (tests_print_four_lines (pg := direct_pingouin)) as (Hchi & Hkw & _).
  split.
  - apply (Hchi imported_module [1 # 100; 1 # 2]%Q "group" "smoker" None None None
             imported_world [1 # 100; 1 # 2]%Q).
    + reflexivity.
    + now eexists.
  - apply (Hkw imported_module [1 # 2]%Q "group" "age" None None None imported_world
             (1 # 2)%Q).
    + reflexivity.
    + now eexists.
Defined.

Lemma chi2_loop_partitions_witness :
  exists w',
    for_each ["smoker"; "region"]
      (fun sec_cat =>
         chi2_independence_test (pg := direct_pingouin) imported_module [1 # 100]%Q "group"
           sec_cat None None None;; ret tt) imported_world
    = (w', inr tt)
    /\ objects w' !! 0 = Some (OList ["smoker"; "region"])
    /\ objects w' !! 1 = Some (OList [])
    /\ (forall l, l <> 0 -> l <> 1 -> objects w' !! l = objects imported_world !! l)
    /\ length (stdout w') = 8.
Proof.
  apply (chi2_loop_partitions (pg := direct_pingouin) imported_module [1 # 100]%Q "group"
           None None None ["smoker"; "region"] imported_world [] []).
  - discriminate.
  - reflexivity.
  - reflexivity.
  - repeat constructor; now eexists.
Defined.

Lemma kruskal_loop_partitions_witness :
  exists w',
    for_each ["age"; "height"]
      (fun num_feat =>
         kruskal_wallis_test (pg := direct_pingouin) imported_module [1 # 2]%Q "group"
           num_feat None None None;; ret tt) imported_world
    = (w', inr tt)
    /\ objects w' !! 2 = Some (OList [])
    /\ objects w' !! 3 = Some (OList ["age"; "height"])
    /\ (forall l, l <> 2 -> l <> 3 -> objects w' !! l = objects imported_world !! l)
    /\ length (stdout w') = 8.
Proof.
  apply (kruskal_loop_partitions (pg := direct_pingouin) imported_module [1 # 2]%Q "group"
           None None None ["age"; "height"] imported_world [] []).
  - discriminate.
  - reflexivity.
  - reflexivity.
  - repeat constructor; now eexists.
Defined.

Lemma tests_with_one_list_for_both_witness :
  (exists out,
      chi2_independence_test (pg := direct_pingouin) imported_module [1 # 2]%Q "group"
        "smoker" (Some 0) (Some 0) None (mkWorld [OList ["age"]] [])
      = (mkWorld [OList ["age"; "smoker"]] out, inr (0, 0)))
  /\ (exists out,
         kruskal_wallis_test (pg := direct_pingouin) imported_module [1 # 100]%Q "group"
           "height" (Some 0) (Some 0) None (mkWorld [OList ["age"]] [])
         = (mkWorld [OList ["age"; "height"]] out, inr (0, 0))).
Proof.
  destruct (tests_with_one_list_for_both (pg := direct_pingouin)) as [Hchi Hkw].
  split.
  - apply (Hchi imported_module [1 # 2]%Q "group" "smoker" 0 None
             (mkWorld [OList ["age"]] []) [1 # 2]%Q ["age"]); reflexivity.
  - apply (Hkw imported_module [1 # 100]%Q "group" "height" 0 None
             (mkWorld [OList ["age"]] []) (1 # 100)%Q ["age"]); reflexivity.
Defined.

Lemma defaults_not_shared_between_tests_witness :
  import_module (mkWorld [] []) = (imported_world, inr imported_module)
  /\ (exists w',
         chi2_independence_test (pg := direct_pingouin) imported_module [1 # 100]%Q "group"
           "smoker" None None None imported_world = (w', inr (0, 1))
         /\ objects w' !! 2 = Some (OList [])
         /\ objects w' !! 3 = Some (OList []))
  /\ (exists w',
         kruskal_wallis_test (pg := direct_pingouin) imported_module [1 # 100]%Q "group"
           "age" None None None imported_world = (w', inr (2, 3))
         /\ objects w' !! 0 = Some (OList [])
         /\ objects w' !! 1 = Some (OList [])).
Proof.
  destruct (defaults_not_shared_between_tests (pg := direct_pingouin)
              (mkWorld [] []) imported_world imported_module eq_refl) as [Hchi Hkw].
  split; [reflexivity|]. split.
  - apply (Hchi [1 # 100]%Q "group" "smoker" None [1 # 100]%Q). reflexivity.
  - apply (Hkw [1 # 100]%Q "group" "age" None (1 # 100)%Q). reflexivity.
Defined.

End HypothesisTestingExtra.

(** ** visualization/visualize.py *)

Module VisualizeFacts.
Import Visualize.

#[global] Arguments pbind : simpl never.
#[global] Arguments pret : simpl never.
#[global] Arguments praise : simpl never.

Section Facts.
Context {sns : Seaborn}.
Implicit Types (p : pyplot) (pre post : list obj) (g : option nat).

Lemma pbind_ret {A B} (x : A) (f : A -> plot B) p : pbind (pret x) f p = f x p.
Proof. reflexivity. Qed.

Lemma pbind_raise {A B} (e : raised) (f : A -> plot B) p :
  pbind (praise e) f p = (p, inl e).
Proof. reflexivity. Qed.

Lemma pbind_eq {A B} (m : plot A) (f : A -> plot B) p p' x :
  m p = (p', inr x) -> pbind m f p = f x p'.
Proof. intros E. unfold pbind. now rewrite E. Qed.

Lemma pbind_pbind_assoc {A B C} (m : plot A) (f : A -> plot B) (h : B -> plot C) p :
  pbind (pbind m f) h p = pbind m (fun x => pbind (f x) h) p.
Proof. unfold pbind. destruct (m p) as [p' [e|x]]; reflexivity. Qed.

(** Entry [(i, j)] of the grid. *)
Lemma grid_lookup base nrows ncols i j :
  i < nrows -> j < ncols ->
  exists row, grid base nrows ncols !! i = Some row
              /\ row !! j = Some (base + i * ncols + j).
Proof.
  intros Hi Hj. unfold grid. eexists. split.
  - rewrite list_lookup_fmap, lookup_seq_lt by exact Hi. reflexivity.
  - rewrite list_lookup_fmap, lookup_seq_lt by exact Hj. reflexivity.
Qed.

Lemma getitem2_grid base nrows ncols i j p :
  i < nrows -> j < ncols ->
  getitem2 (Axes2D (grid base nrows ncols)) i j p = (p, inr (base + i * ncols + j)).
Proof.
  intros Hi Hj. destruct (grid_lookup base nrows ncols i j Hi Hj) as (row & Hr & Hc).
  unfold getitem2. now rewrite Hr, Hc.
Qed.

(** A grid with one column, flattened. *)
Lemma concat_grid_column base nrows i :
  i < nrows -> concat (grid base nrows 1) !! i = Some (base + i * 1 + 0).
Proof.
  intros Hi. unfold grid. cbn [seq map].
  assert (E : forall l : list nat,
             concat (map (fun r => [base + r * 1 + 0]) l)
             = map (fun r => base + r * 1 + 0) l).
  { induction l as [|x l IH]; cbn; [reflexivity|now rewrite IH]. }
  rewrite E, list_lookup_fmap, lookup_seq_lt by exact Hi. reflexivity.
Qed.

Lemma getitem1_grid_column base nrows i p :
  i < nrows ->
  getitem1 (Axes1D (concat (grid base nrows 1))) i p = (p, inr (base + i * 1 + 0)).
Proof.
  intros Hi. unfold getitem1. now rewrite (concat_grid_column base nrows i Hi).
Qed.

(** Drawing on, and titling, the first and the second [Axes] after [pre]. *)
Lemma draw_at0 df art pre arts title post g :
  sns_call df art = inr tt ->
  draw df art (length pre + 0) (mkPyplot (pre ++ OAxes arts title :: post) g)
  = (mkPyplot (pre ++ OAxes (arts ++ [art]) title :: post) g, inr tt).
Proof.
  intros Hok. unfold draw. rewrite Hok. cbn [plt_objects plt_gcf].
  rewrite Nat.add_0_r at 1. rewrite list_lookup_middle by reflexivity.
  now rewrite insert_app_r.
Qed.

Lemma draw_at1 df art pre a arts title post g :
  sns_call df art = inr tt ->
  draw df art (length pre + 1) (mkPyplot (pre ++ a :: OAxes arts title :: post) g)
  = (mkPyplot (pre ++ a :: OAxes (arts ++ [art]) title :: post) g, inr tt).
Proof.
  intros Hok. unfold draw. rewrite Hok. cbn [plt_objects plt_gcf].
  rewrite lookup_app_r by lia.
  replace (length pre + 1 - length pre) with 1 by lia. cbn [lookup list_lookup].
  now rewrite insert_app_r.
Qed.

Lemma set_title_at0 s pre arts title post g :
  set_title (length pre + 0) s (mkPyplot (pre ++ OAxes arts title :: post) g)
  = (mkPyplot (pre ++ OAxes arts (Some s) :: post) g, inr tt).
Proof.
  unfold set_title. cbn [plt_objects plt_gcf].
  rewrite Nat.add_0_r at 1. rewrite list_lookup_middle by reflexivity.
  now rewrite insert_app_r.
Qed.

Lemma set_title_at1 s pre a arts title post g :
  set_title (length pre + 1) s (mkPyplot (pre ++ a :: OAxes arts title :: post) g)
  = (mkPyplot (pre ++ a :: OAxes arts (Some s) :: post) g, inr tt).
Proof.
  unfold set_title. cbn [plt_objects plt_gcf].
  rewrite lookup_app_r by lia.
  replace (length pre + 1 - length pre) with 1 by lia. cbn [lookup list_lookup].
  now rewrite insert_app_r.
Qed.

(** One symbolic step of a row. *)
Ltac row_step :=
  first
    [ erewrite pbind_eq by (apply getitem2_grid; lia)
    | erewrite pbind_eq by (apply getitem1_grid_column; lia)
    | erewrite pbind_eq by (apply draw_at0; eassumption)
    | erewrite pbind_eq by (apply draw_at1; eassumption)
    | erewrite pbind_eq by apply set_title_at0
    | erewrite pbind_eq by apply set_title_at1
    | rewrite set_title_at0
    | rewrite set_title_at1 ].

(** A loop whose body turns the [k] blank [Axes] of row [i] into [fin col]
    turns the blank rows, one after the other, into the finished ones. *)
Lemma for_enumerate_rows (body : nat -> string -> plot unit) (fin : string -> list obj)
  (ok : string -> Prop) (k base nrows : nat) g :
  (forall i col pre post,
      ok col -> i < nrows -> length pre = base + i * k ->
      body i col (mkPyplot (pre ++ repeat (OAxes [] None) k ++ post) g)
      = (mkPyplot (pre ++ fin col ++ post) g, inr tt)) ->
  (forall col, length (fin col) = k) ->
  forall rest i pre,
    Forall ok rest ->
    i + length rest = nrows ->
    length pre = base + i * k ->
    for_enumerate i rest body
      (mkPyplot (pre ++ repeat (OAxes [] None) (length rest * k)) g)
    = (mkPyplot (pre ++ flat_map fin rest) g, inr tt).
Proof.
  intros Hrow Hfin rest.
  induction rest as [|col rest IH]; intros i pre Hok Hn Hpre.
  - reflexivity.
  - inversion Hok as [|? ? Hcol Hrest]; subst.
    cbn [for_enumerate length flat_map].
    replace (S (length rest) * k) with (k + length rest * k) by lia.
    rewrite repeat_app.
    erewrite pbind_eq by (apply Hrow; [exact Hcol|cbn [length] in *; lia|exact Hpre]).
    rewrite (app_assoc pre (fin col)).
    rewrite IH.
    + now rewrite <- app_assoc.
    + exact Hrest.
    + cbn [length]. lia.
    + rewrite length_app, Hfin, Hpre. lia.
Qed.

(** One row of [explore_numerical_dist], in either branch. *)
Lemma explore_row df (hue name_df : option string) base nrows i col pre post g
  (body : nat -> string -> plot unit) :
  body = (if hue_given hue then
            fun i col =>
              pbind (getitem2 (Axes2D (grid base nrows 2)) i 0) (fun ax0 =>
              pbind (draw df (Histplot col hue true None None None) ax0) (fun _ =>
              pbind (getitem2 (Axes2D (grid base nrows 2)) i 1) (fun ax1 =>
              pbind (draw df (Boxplot col hue) ax1) (fun _ =>
              pbind (getitem2 (Axes2D (grid base nrows 2)) i 0) (fun ax0 =>
              pbind (set_title ax0
                       (default "Train data" name_df +:+ " " +:+ col
                        +:+ " histogram by " +:+ default "" hue)) (fun _ =>
              pbind (getitem2 (Axes2D (grid base nrows 2)) i 1) (fun ax1 =>
              set_title ax1
                (default "Train data" name_df +:+ " " +:+ col
                 +:+ " boxplot by " +:+ default "" hue))))))))
          else
            fun i col =>
              pbind (getitem2 (Axes2D (grid base nrows 2)) i 0) (fun ax0 =>
              pbind (draw df (Histplot col None true None None None) ax0) (fun _ =>
              pbind (getitem2 (Axes2D (grid base nrows 2)) i 1) (fun ax1 =>
              pbind (draw df (Boxplot col None) ax1) (fun _ =>
              pbind (getitem2 (Axes2D (grid base nrows 2)) i 0) (fun ax0 =>
              pbind (set_title ax0
                       (default "Train data" name_df +:+ " " +:+ col +:+ " histogram"))
                (fun _ =>
              pbind (getitem2 (Axes2D (grid base nrows 2)) i 1) (fun ax1 =>
              set_title ax1
                (default "Train data" name_df +:+ " " +:+ col +:+ " boxplot"))))))))) ->
  Forall (fun art => sns_call df art = inr tt) (explored_artists hue col) ->
  i < nrows ->
  length pre = base + i * 2 ->
  body i col (mkPyplot (pre ++ repeat (OAxes [] None) 2 ++ post) g)
  = (mkPyplot (pre ++ explored name_df hue col ++ post) g, inr tt).
Proof.
  intros -> Hok Hi Hpre. unfold explored_artists, explored in *.
  destruct (hue_given hue);
    apply Forall_cons in Hok as [Hhist Hok]; apply Forall_cons in Hok as [Hbox _];
    cbn [repeat app]; repeat (row_step || rewrite <- Hpre); reflexivity.
Qed.

(** One row of [plotting_categories] when [hue] is given. *)
Lemma categories_row_hue df (hue name_df : option string) base nrows i col pre post g :
  hue_given hue = true ->
  Forall (fun art => sns_call df art = inr tt) (categorized_artists hue col) ->
  i < nrows ->
  length pre = base + i * 2 ->
  pbind (getitem2 (Axes2D (grid base nrows 2)) i 0) (fun ax0 =>
  pbind (draw df (Countplot col hue) ax0) (fun _ =>
  pbind (getitem2 (Axes2D (grid base nrows 2)) i 1) (fun ax1 =>
  pbind (draw df (Histplot col hue false (Some "fill") (Some "proportion")
                    (Some (8 # 10)%Q)) ax1) (fun _ =>
  pbind (getitem2 (Axes2D (grid base nrows 2)) i 0) (fun ax0 =>
  pbind (set_title ax0
           (default "Train data" name_df +:+ " " +:+ col +:+ " count by "
            +:+ default "" hue)) (fun _ =>
  pbind (getitem2 (Axes2D (grid base nrows 2)) i 1) (fun ax1 =>
  set_title ax1
    (default "Train data" name_df +:+ " " +:+ col +:+ " proportion by "
     +:+ default "" hue))))))))
    (mkPyplot (pre ++ repeat (OAxes [] None) 2 ++ post) g)
  = (mkPyplot (pre ++ categorized name_df hue col ++ post) g, inr tt).
Proof.
  intros Hhue Hok Hi Hpre. unfold categorized_artists, categorized in *.
  rewrite Hhue in *.
  apply Forall_cons in Hok as [Hcount Hok]. apply Forall_cons in Hok as [Hhist _].
  cbn [repeat app]. repeat (row_step || rewrite <- Hpre). reflexivity.
Qed.

(** One row of [plotting_categories] when [hue] is not given. *)
Lemma categories_row_plain df (hue name_df : option string) base nrows i col pre post g :
  hue_given hue = false ->
  Forall (fun art => sns_call df art = inr tt) (categorized_artists hue col) ->
  i < nrows ->
  length pre = base + i * 1 ->
  pbind (getitem1 (Axes1D (concat (grid base nrows 1))) i) (fun ax =>
  pbind (draw df (Countplot col None) ax) (fun _ =>
  pbind (getitem1 (Axes1D (concat (grid base nrows 1))) i) (fun ax =>
  set_title ax (default "Train data" name_df +:+ " " +:+ col +:+ " count"))))
    (mkPyplot (pre ++ repeat (OAxes [] None) 1 ++ post) g)
  = (mkPyplot (pre ++ categorized name_df hue col ++ post) g, inr tt).
Proof.
  intros Hhue Hok Hi Hpre. unfold categorized_artists, categorized in *.
  rewrite Hhue in *.
  apply Forall_cons in Hok as [Hcount _].
  cbn [repeat app]. repeat (row_step || rewrite <- Hpre). reflexivity.
Qed.

Lemma tight_layout_at (objs : list obj) size tight post :
  plt_tight_layout (mkPyplot (objs ++ OFigure size tight :: post) (Some (length objs)))
  = (mkPyplot (objs ++ OFigure size true :: post) (Some (length objs)), inr tt).
Proof.
  unfold plt_tight_layout. cbn [plt_objects plt_gcf].
  rewrite list_lookup_middle by reflexivity.
  rewrite insert_app_r_alt by lia. now rewrite Nat.sub_diag.
Qed.

(** [plt.subplots] on a grid with at least two rows and two columns. *)
Lemma plt_subplots_2d {B} nrows size (f : nat * axes_array -> plot B) p :
  2 <= nrows ->
  pbind (plt_subplots nrows 2 size) f p
  = f (length (plt_objects p), Axes2D (grid (S (length (plt_objects p))) nrows 2))
      (mkPyplot ((plt_objects p ++ [OFigure size false])
                 ++ repeat (OAxes [] None) (nrows * 2))
         (Some (length (plt_objects p)))).
Proof.
  intros Hn. unfold pbind, plt_subplots, squeeze.
  destruct nrows as [|[|n]]; [lia|lia|]. reflexivity.
Qed.

(** [plt.subplots] on a single column of at least two rows. *)
Lemma plt_subplots_column {B} nrows size (f : nat * axes_array -> plot B) p :
  2 <= nrows ->
  pbind (plt_subplots nrows 1 size) f p
  = f (length (plt_objects p), Axes1D (concat (grid (S (length (plt_objects p))) nrows 1)))
      (mkPyplot ((plt_objects p ++ [OFigure size false])
                 ++ repeat (OAxes [] None) (nrows * 1))
         (Some (length (plt_objects p)))).
Proof.
  intros Hn. unfold pbind, plt_subplots, squeeze.
  destruct nrows as [|[|n]]; [lia|lia|]. reflexivity.
Qed.

(** X15.  With exactly one column, [explore_numerical_dist] raises
    [IndexError], with or without [hue]: [plt.subplots(1, 2)] returns a
    one-dimensional array and the first [axs[i, 0]] has one index too
    many.  The figure and its two blank [Axes] exist, nothing was drawn on
    them, no title was set and [tight_layout] was not reached. *)
Theorem explore_numerical_dist_single_column df col hue name_df p :
  explore_numerical_dist df [col] hue name_df p
  = (mkPyplot (plt_objects p ++ [OFigure (12, 6) false; OAxes [] None; OAxes [] None])
       (Some (length (plt_objects p))),
     inl IndexError).
Proof.
  unfold explore_numerical_dist, pbind, plt_subplots. cbn [length Nat.eqb orb Nat.mul].
  cbn [snd squeeze Nat.eqb andb orb].
  destruct (hue_given hue); cbn; now rewrite <- app_assoc.
Qed.

(** X16.  With at least two columns, all of which seaborn accepts,
    [explore_numerical_dist] returns and leaves one figure of size
    [(12, 6 * len(cols))] with tight layout and, per column in list order,
    one [Axes] holding the histogram with its title followed by one
    holding the box plot with its title; each [Axes] holds exactly one
    artist. *)
Theorem explore_numerical_dist_draws_all df cols hue name_df p :
  2 <= length cols ->
  Forall (fun col => Forall (fun art => sns_call df art = inr tt) (explored_artists hue col))
         cols ->
  explore_numerical_dist df cols hue name_df p
  = (mkPyplot
       (plt_objects p
        ++ OFigure (12, 6 * length cols) true :: flat_map (explored name_df hue) cols)
       (Some (length (plt_objects p))),
     inr tt).
Proof.
  intros Hn Hok. unfold explore_numerical_dist.
  rewrite plt_subplots_2d by exact Hn. cbn [snd].
  assert (Hloop :
    forall body,
      body = (if hue_given hue then
                fun i col =>
                  pbind (getitem2 (Axes2D (grid (S (length (plt_objects p)))
                                             (length cols) 2)) i 0) (fun ax0 =>
                  pbind (draw df (Histplot col hue true None None None) ax0) (fun _ =>
                  pbind (getitem2 (Axes2D (grid (S (length (plt_objects p)))
                                             (length cols) 2)) i 1) (fun ax1 =>
                  pbind (draw df (Boxplot col hue) ax1) (fun _ =>
                  pbind (getitem2 (Axes2D (grid (S (length (plt_objects p)))
                                             (length cols) 2)) i 0) (fun ax0 =>
                  pbind (set_title ax0
                           (default "Train data" name_df +:+ " " +:+ col
                            +:+ " histogram by " +:+ default "" hue)) (fun _ =>
                  pbind (getitem2 (Axes2D (grid (S (length (plt_objects p)))
                                             (length cols) 2)) i 1) (fun ax1 =>
                  set_title ax1
                    (default "Train data" name_df +:+ " " +:+ col
                     +:+ " boxplot by " +:+ default "" hue))))))))
              else
                fun i col =>
                  pbind (getitem2 (Axes2D (grid (S (length (plt_objects p)))
                                             (length cols) 2)) i 0) (fun ax0 =>
                  pbind (draw df (Histplot col None true None None None) ax0) (fun _ =>
                  pbind (getitem2 (Axes2D (grid (S (length (plt_objects p)))
                                             (length cols) 2)) i 1) (fun ax1 =>
                  pbind (draw df (Boxplot col None) ax1) (fun _ =>
                  pbind (getitem2 (Axes2D (grid (S (length (plt_objects p)))
                                             (length cols) 2)) i 0) (fun ax0 =>
                  pbind (set_title ax0
                           (default "Train data" name_df +:+ " " +:+ col +:+ " histogram"))
                    (fun _ =>
                  pbind (getitem2 (Axes2D (grid (S (length (plt_objects p)))
                                             (length cols) 2)) i 1) (fun ax1 =>
                  set_title ax1
                    (default "Train data" name_df +:+ " " +:+ col +:+ " boxplot"))))))))) ->
      for_enumerate 0 cols body
        (mkPyplot ((plt_objects p ++ [OFigure (12, 6 * length cols) false])
                   ++ repeat (OAxes [] None) (length cols * 2))
           (Some (length (plt_objects p))))
      = (mkPyplot ((plt_objects p ++ [OFigure (12, 6 * length cols) false])
                   ++ flat_map (explored name_df hue) cols)
           (Some (length (plt_objects p))),
         inr tt)).
  { intros body Hbody.
    apply (for_enumerate_rows body (explored name_df hue)
             (fun col => Forall (fun art => sns_call df art = inr tt)
                           (explored_artists hue col))
             2 (S (length (plt_objects p))) (length cols)).
    - intros i col pre post Hcol Hi Hpre.
      exact (explore_row df hue name_df _ _ i col pre post _ body Hbody Hcol Hi Hpre).
    - intros col. unfold explored. destruct (hue_given hue); reflexivity.
    - exact Hok.
    - reflexivity.
    - rewrite length_app. cbn. lia. }
  destruct (hue_given hue) eqn:Hhue.
  - erewrite pbind_eq by (apply Hloop; reflexivity).
    rewrite <- app_assoc. cbn [app]. apply tight_layout_at.
  - erewrite pbind_eq by (apply Hloop; reflexivity).
    rewrite <- app_assoc. cbn [app]. apply tight_layout_at.
Qed.

(** X17.  On an empty list of columns both functions raise [ValueError]
    ([plt.subplots] is asked for a grid without rows), in either branch;
    nothing they found is changed. *)
Theorem plots_on_no_columns_raise df hue name_df p :
  (snd (explore_numerical_dist df [] hue name_df p) = inl (PyExn ValueError)
   /\ take (length (plt_objects p))
        (plt_objects (fst (explore_numerical_dist df [] hue name_df p)))
      = plt_objects p)
  /\ (snd (plotting_categories df [] hue name_df p) = inl (PyExn ValueError)
      /\ take (length (plt_objects p))
           (plt_objects (fst (plotting_categories df [] hue name_df p)))
         = plt_objects p).
Proof.
  unfold explore_numerical_dist, plotting_categories, pbind, plt_subplots.
  cbn [length Nat.eqb orb].
  destruct (hue_given hue); cbn [fst snd plt_objects];
    rewrite !take_app_length; auto.
Qed.

(** X18.  With exactly one column, [plotting_categories] raises: with
    [hue], [IndexError] at the first [axs[i, 0]] (the array of two [Axes]
    is one-dimensional); without [hue], [TypeError] at [axs[i]]
    ([plt.subplots(1, 1)] returns the one [Axes] itself, which cannot be
    indexed).  Nothing was drawn and [tight_layout] was not reached. *)
Theorem plotting_categories_single_column df col hue name_df p :
  plotting_categories df [col] hue name_df p
  = if hue_given hue then
      (mkPyplot (plt_objects p ++ [OFigure (12, 6) false; OAxes [] None; OAxes [] None])
         (Some (length (plt_objects p))),
       inl IndexError)
    else
      (mkPyplot (plt_objects p ++ [OFigure (6, 6) false; OAxes [] None])
         (Some (length (plt_objects p))),
       inl (PyExn TypeError)).
Proof.
  unfold plotting_categories, pbind, plt_subplots. cbn [length Nat.eqb orb Nat.mul].
  destruct (hue_given hue); cbn; now rewrite <- app_assoc.
Qed.

(** X19.  With at least two columns, all of which seaborn accepts,
    [plotting_categories] returns and leaves one figure with tight layout
    and, per column in list order: with [hue], an [Axes] with the count
    plot followed by one with the proportion histogram ([multiple='fill'],
    [stat='proportion'], [shrink=0.8]), on a figure of size
    [(12, 6 * len(cat_cols))]; without [hue], a single [Axes] with the
    count plot, on a figure of size [(6, 6 * len(cat_cols))].  Every
    [Axes] carries its title. *)
Theorem plotting_categories_draws_all df cat_cols hue name_df p :
  2 <= length cat_cols ->
  Forall (fun col =>
            Forall (fun art => sns_call df art = inr tt) (categorized_artists hue col))
         cat_cols ->
  plotting_categories df cat_cols hue name_df p
  = (mkPyplot
       (plt_objects p
        ++ OFigure (if hue_given hue then 12 else 6, 6 * length cat_cols) true
           :: flat_map (categorized name_df hue) cat_cols)
       (Some (length (plt_objects p))),
     inr tt).
Proof.
  intros Hn Hok. unfold plotting_categories.
  destruct (hue_given hue) eqn:Hhue.
  - rewrite pbind_pbind_assoc, plt_subplots_2d by exact Hn. cbn [snd].
    erewrite pbind_eq.
    2:{ apply (for_enumerate_rows _ (categorized name_df hue)
                 (fun col => Forall (fun art => sns_call df art = inr tt)
                               (categorized_artists hue col))
                 2 (S (length (plt_objects p))) (length cat_cols)).
        - intros i col pre post Hcol Hi Hpre.
          now apply categories_row_hue.
        - intros col. unfold categorized. now rewrite Hhue.
        - exact Hok.
        - reflexivity.
        - rewrite length_app. cbn. lia. }
    rewrite <- app_assoc. cbn [app]. apply tight_layout_at.
  - rewrite pbind_pbind_assoc, plt_subplots_column by exact Hn. cbn [snd].
    erewrite pbind_eq.
    2:{ apply (for_enumerate_rows _ (categorized name_df hue)
                 (fun col => Forall (fun art => sns_call df art = inr tt)
                               (categorized_artists hue col))
                 1 (S (length (plt_objects p))) (length cat_cols)).
        - intros i col pre post Hcol Hi Hpre.
          now apply categories_row_plain.
        - intros col. unfold categorized. now rewrite Hhue.
        - exact Hok.
        - reflexivity.
        - rewrite length_app. cbn. lia. }
    rewrite <- app_assoc. cbn [app]. apply tight_layout_at.
Qed.

End Facts.

(** *** The statements above at concrete calls *)

Lemma explore_numerical_dist_draws_all_witness :
  explore_numerical_dist (sns := listed_seaborn) ["age"; "height"] ["age"; "height"]
    (Some "group") None (mkPyplot [] None)
  = (mkPyplot
       [OFigure (12, 12) true;
        OAxes [Histplot "age" (Some "group") true None None None]
          (Some "Train data age histogram by group");
        OAxes [Boxplot "age" (Some "group")] (Some "Train data age boxplot by group");
        OAxes [Histplot "height" (Some "group") true None None None]
          (Some "Train data height histogram by group");
        OAxes [Boxplot "height" (Some "group")] (Some "Train data height boxplot by group")]
       (Some 0),
     inr tt).
Proof.
  apply (explore_numerical_dist_draws_all (sns := listed_seaborn) ["age"; "height"]
           ["age"; "height"] (Some "group") None (mkPyplot [] None)).
  - cbn. lia.
  - repeat constructor.
Defined.

Lemma plotting_categories_draws_all_witness :
  plotting_categories (sns := listed_seaborn) ["city"; "job"] ["city"; "job"]
    None (Some "Test data") (mkPyplot [] None)
  = (mkPyplot
       [OFigure (6, 12) true;
        OAxes [Countplot "city" None] (Some "Test data city count");
        OAxes [Countplot "job" None] (Some "Test data job count")]
       (Some 0),
     inr tt).
Proof.
  apply (plotting_categories_draws_all (sns := listed_seaborn) ["city"; "job"]
           ["city"; "job"] None (Some "Test data") (mkPyplot [] None)).
  - cbn. lia.
  - repeat constructor.
Defined.

End VisualizeFacts.
